(** * Entitlement synchronisation routes of the account portal

    A shallow embedding of the three Stripe routes of
    [src/routes/account.js]:

    - [POST /stripe/checkout/:priceId]  (customer resolution and checkout),
    - [POST /stripe/unsubscribe]        (user-initiated cancellation),
    - [POST /stripe/webhook]            (signed event intake).

    The handlers are [async] functions that talk to two outside parties, the
    Stripe client and the PNID collection of the database.  They are embedded
    in a small monad that threads the world (database and provider state),
    carries JavaScript exceptions as a second kind of result, and records
    every outward call in an effect list, so that statements such as
    "the provider is not called" or "the watermark is reset before the
    session is created" can be read off the run. *)

From Stdlib Require Import ZArith String List Lia.
From Stdlib Require Import Ascii HexadecimalString.
From Stdlib.Strings Require Byte.
From stdpp Require Import base option list gmap strings pretty sorting.

Open Scope string_scope.
Open Scope Z_scope.

(** ** JavaScript values that may be absent *)

(** A document path read with [pnid.get(...)] yields [undefined] when the path
    was never set, [null] when it was cleared, and a value otherwise. *)
Inductive Nullable (A : Type) : Type :=
| undefined
| null
| value (a : A).
Arguments undefined {A}.
Arguments null {A}.
Arguments value {A} a.

(** [if (s)] on a string-or-absent value: [undefined], [null] and the empty
    string are falsy. *)
Definition truthy (s : Nullable string) : bool :=
  match s with
  | value EmptyString => false
  | value _ => true
  | _ => false
  end.

(** Interpolation [`${s}`] of a string-or-absent value. *)
Definition interpolate (s : Nullable string) : string :=
  match s with
  | undefined => "undefined"
  | null => "null"
  | value a => a
  end.

(** ** The PNID document *)

(** The billing sub-document [connections.stripe]. *)
Record StripeConnection := {
  customer_id : Nullable string;
  subscription_id : Nullable string;
  price_id : Nullable string;
  tier_level : Nullable Z;
  tier_name : Nullable string;
  latest_webhook_timestamp : Z
}.

Record PNID := {
  pid : Z;
  access_level : Z;
  connections_stripe : StripeConnection
}.

(** [request.account], the account as the login middleware attached it to the
    request: the handler reads [account.pid] and [account.email.address]. *)
Record Email := { address : string }.
Record Account := { account_pid : Z; email : Email }.

(** One entry of a [$set] update: a document path with its new value. *)
Inductive SetField :=
| Set_customer_id (v : Nullable string)
| Set_subscription_id (v : Nullable string)
| Set_price_id (v : Nullable string)
| Set_tier_level (v : Nullable Z)
| Set_tier_name (v : Nullable string)
| Set_latest_webhook_timestamp (v : Z)
| Set_access_level (v : Z).

Definition set_stripe (f : StripeConnection -> StripeConnection) (d : PNID) : PNID :=
  {| pid := pid d; access_level := access_level d;
     connections_stripe := f (connections_stripe d) |}.

Definition apply_set (d : PNID) (f : SetField) : PNID :=
  match f with
  | Set_customer_id v =>
      set_stripe (fun s =>
        {| customer_id := v; subscription_id := subscription_id s;
           price_id := price_id s; tier_level := tier_level s;
           tier_name := tier_name s;
           latest_webhook_timestamp := latest_webhook_timestamp s |}) d
  | Set_subscription_id v =>
      set_stripe (fun s =>
        {| customer_id := customer_id s; subscription_id := v;
           price_id := price_id s; tier_level := tier_level s;
           tier_name := tier_name s;
           latest_webhook_timestamp := latest_webhook_timestamp s |}) d
  | Set_price_id v =>
      set_stripe (fun s =>
        {| customer_id := customer_id s; subscription_id := subscription_id s;
           price_id := v; tier_level := tier_level s;
           tier_name := tier_name s;
           latest_webhook_timestamp := latest_webhook_timestamp s |}) d
  | Set_tier_level v =>
      set_stripe (fun s =>
        {| customer_id := customer_id s; subscription_id := subscription_id s;
           price_id := price_id s; tier_level := v;
           tier_name := tier_name s;
           latest_webhook_timestamp := latest_webhook_timestamp s |}) d
  | Set_tier_name v =>
      set_stripe (fun s =>
        {| customer_id := customer_id s; subscription_id := subscription_id s;
           price_id := price_id s; tier_level := tier_level s;
           tier_name := v;
           latest_webhook_timestamp := latest_webhook_timestamp s |}) d
  | Set_latest_webhook_timestamp v =>
      set_stripe (fun s =>
        {| customer_id := customer_id s; subscription_id := subscription_id s;
           price_id := price_id s; tier_level := tier_level s;
           tier_name := tier_name s;
           latest_webhook_timestamp := v |}) d
  | Set_access_level v =>
      {| pid := pid d; access_level := v;
         connections_stripe := connections_stripe d |}
  end.

(** [{ $set: fields }] applied to one document, entry by entry. *)
Definition apply_sets (fields : list SetField) (d : PNID) : PNID :=
  fold_left apply_set fields d.

(** The fields of the subscription tier. *)
Definition is_tier_field (f : SetField) : bool :=
  match f with
  | Set_subscription_id _ | Set_price_id _ | Set_tier_level _ | Set_tier_name _ => true
  | _ => false
  end.

(** ** What the handlers exchange with Stripe *)

Record Error := { message : string }.

Module Customer.
Record t := { id : string }.
End Customer.

Module Session.
Record t := { url : string }.
End Session.

Record CustomerSearchParams := { query : string }.

Record Metadata := { pnid_pid : Z }.
Record CustomerCreateParams := { create_email : string; metadata : Metadata }.

Record LineItem := { price : string; quantity : Z }.
Record SessionCreateParams := {
  line_items : list LineItem;
  customer : string;
  mode : string;
  success_url : string;
  cancel_url : string
}.

(** ** What the handlers answer to the browser or to Stripe *)

(** [response.cookie(name, value, { domain })]. *)
Record Cookie := { cookie_name : string; cookie_value : string; cookie_domain : string }.

(** The call that ends the response: [response.redirect([status,] url)] (302
    when no status is given), [response.status(s).send(body)], or
    [response.json(body)] with a body of boolean members. *)
Inductive Reply :=
| redirect (status : Z) (location : string)
| send (status : Z) (body : string)
| json (body : list (string * bool)).

Record Response := { cookies : list Cookie; reply : Reply }.

(** [config.json], as far as the three routes read it. *)
Record Config := {
  http_base_url : string;
  stripe_webhook_secret : string
}.

(** ** Results, effects and the handler monad *)

Inductive Result (A : Type) : Type :=
| Ok (a : A)
| Throw (e : Error).
Arguments Ok {A} a.
Arguments Throw {A} e.

Section Routes.

(** The provider's own state and the type of a decoded webhook event are
    Stripe's, not the portal's. *)
Context {Provider Event : Type}.

(** Every call that leaves the handler, in the order it is made. *)
Inductive Effect :=
| stripe_customers_search_call (params : CustomerSearchParams)
| stripe_customers_create_call (params : CustomerCreateParams)
| stripe_checkout_sessions_create_call (params : SessionCreateParams)
| stripe_subscriptions_del_call (subscriptionId : string)
| database_PNID_updateOne_call (filter_pid : Z) (fields : list SetField) (upsert : bool)
| logger_error_call (msg : string)
| util_handleStripeEvent_call (event : Event).

Record World := {
  db : gmap Z PNID;
  provider : Provider
}.

Record Outcome (A : Type) := {
  result : Result A;
  world : World;
  effects : list Effect
}.
Arguments result {A} o.
Arguments world {A} o.
Arguments effects {A} o.

Definition M (A : Type) : Type := World -> Outcome A.

Definition ret {A} (a : A) : M A :=
  fun w => {| result := Ok a; world := w; effects := [] |}.

Definition throw {A} (e : Error) : M A :=
  fun w => {| result := Throw e; world := w; effects := [] |}.

(** [await m; k]: a rejected [m] skips [k]; what [m] did stays done. *)
Definition bind {A B} (m : M A) (k : A -> M B) : M B :=
  fun w =>
    let o := m w in
    match result o with
    | Ok a =>
        let o' := k a (world o) in
        {| result := result o'; world := world o';
           effects := effects o ++ effects o' |}
    | Throw e =>
        {| result := Throw e; world := world o; effects := effects o |}
    end.

(** [try { m } catch (error) { h error }]. *)
Definition try_catch {A} (m : M A) (h : Error -> M A) : M A :=
  fun w =>
    let o := m w in
    match result o with
    | Ok a => o
    | Throw e =>
        let o' := h e (world o) in
        {| result := result o'; world := world o';
           effects := effects o ++ effects o' |}
    end.

Definition emit (e : Effect) : M unit :=
  fun w => {| result := Ok tt; world := w; effects := [e] |}.


Notation "'let*' x ':=' m 'in' k" := (bind m (fun x => k))
  (at level 10, x name, m at level 100, k at level 200, only parsing).

(** *** The Stripe client *)

(** The methods of the [stripe] object the routes call.  An asynchronous
    method answers with a value or rejects, and may change the provider's
    state either way; [webhooks.constructEvent] is synchronous and either
    returns the decoded event or throws. *)
Record StripeAPI := {
  customers_search :
    CustomerSearchParams -> Provider -> Result (list Customer.t) * Provider;
  customers_create :
    CustomerCreateParams -> Provider -> Result Customer.t * Provider;
  checkout_sessions_create :
    SessionCreateParams -> Provider -> Result Session.t * Provider;
  subscriptions_del :
    string -> Provider -> Result unit * Provider;
  webhooks_constructEvent :
    string -> Nullable string -> string -> Result Event
}.

Variable stripe : StripeAPI.
Variable config : Config.

(** [util.handleStripeEvent], the reconciler of [src/util.js]: the webhook
    route is verified for every reconciler, including one that rejects. *)
Variable util_handleStripeEvent : Event -> M unit.

(** The document mongoose builds from the defaults of the PNID schema
    ([src/database.js]) when an upsert matches nothing. *)
Variable PNID_schema_defaults : PNID.

Definition stripe_call {A} (e : Effect) (f : Provider -> Result A * Provider) : M A :=
  fun w =>
    let '(r, p) := f (provider w) in
    {| result := r; world := {| db := db w; provider := p |}; effects := [e] |}.

Definition stripe_customers_search (params : CustomerSearchParams) : M (list Customer.t) :=
  stripe_call (stripe_customers_search_call params) (customers_search stripe params).

Definition stripe_customers_create (params : CustomerCreateParams) : M Customer.t :=
  stripe_call (stripe_customers_create_call params) (customers_create stripe params).

Definition stripe_checkout_sessions_create (params : SessionCreateParams) : M Session.t :=
  stripe_call (stripe_checkout_sessions_create_call params)
    (checkout_sessions_create stripe params).

Definition stripe_subscriptions_del (subscriptionId : string) : M unit :=
  stripe_call (stripe_subscriptions_del_call subscriptionId)
    (subscriptions_del stripe subscriptionId).

(** *** The PNID collection *)

Definition new_document (filter_pid : Z) : PNID :=
  {| pid := filter_pid;
     access_level := access_level PNID_schema_defaults;
     connections_stripe := connections_stripe PNID_schema_defaults |}.

(** [PNID.updateOne({ pid }, { $set: fields }, { upsert })] on the collection:
    the matching document is updated; when none matches, an upsert inserts a
    fresh document carrying the filter's [pid] and the fields, and a plain
    update does nothing. *)
Definition updateOne (filter_pid : Z) (fields : list SetField) (upsert : bool)
    (docs : gmap Z PNID) : gmap Z PNID :=
  match docs !! filter_pid with
  | Some doc => <[filter_pid := apply_sets fields doc]> docs
  | None =>
      if upsert then <[filter_pid := apply_sets fields (new_document filter_pid)]> docs
      else docs
  end.

Definition database_PNID_updateOne (filter_pid : Z) (fields : list SetField)
    (upsert : bool) : M unit :=
  fun w =>
    {| result := Ok tt;
       world := {| db := updateOne filter_pid fields upsert (db w);
                   provider := provider w |};
       effects := [database_PNID_updateOne_call filter_pid fields upsert] |}.

(** [PNID.findOne({ pid })]: the document, or [null].  Like the update above,
    the read is that of a collection that always answers; [checkout_with]
    further down leaves both calls open to rejection. *)
Definition database_PNID_findOne (filter_pid : Z) : M (option PNID) :=
  fun w => {| result := Ok (db w !! filter_pid); world := w; effects := [] |}.

Definition logger_error (msg : string) : M unit :=
  emit (logger_error_call msg).

(** ** The routes *)

Definition pretendo_cookie (name val : string) : Cookie :=
  {| cookie_name := name; cookie_value := val; cookie_domain := ".pretendo.network" |}.

(** *** [POST /stripe/checkout/:priceId] *)

Definition customer_query (pid : Z) : CustomerSearchParams :=
  {| query := "metadata['pnid_pid']:'" +:+ pretty pid +:+ "'" |}.

Definition checkout_session_params (priceId customerId : string) : SessionCreateParams :=
  {| line_items := [ {| price := priceId; quantity := 1 |} ];
     customer := customerId;
     mode := "subscription";
     success_url := http_base_url config +:+ "/account?upgrade_success=true";
     cancel_url := http_base_url config +:+ "/account?upgrade_success=false" |}.

Definition staff_rejection : Response :=
  {| cookies := [pretendo_cookie "error_message" "Staff members do not need to purchase tiers"];
     reply := redirect 302 "/account" |}.

(** Lines 313 to 327, the customer resolver: the first customer the search
    returns, or a newly created one when it returns none. *)
Definition customer_resolution (account : Account) : M Customer.t :=
  let pid := account_pid account in
  let* searchResults := stripe_customers_search (customer_query pid) in
  match searchResults with
  | found :: _ => ret found
  | [] =>
      stripe_customers_create
        {| create_email := address (email account);
           metadata := {| pnid_pid := pid |} |}
  end.

(** The [$set] of line 329. *)
Definition checkout_updateData (customer : Customer.t) : list SetField :=
  [ Set_customer_id (value (Customer.id customer));
    Set_latest_webhook_timestamp 0 ].

Definition checkout (account : Account) (priceId : string) : M Response :=
  let pid := account_pid account in
  let* customer := customer_resolution account in
  let* _ := database_PNID_updateOne pid (checkout_updateData customer) true in
  let* pnid := database_PNID_findOne pid in
  match pnid with
  | None => throw {| message := "Cannot read properties of null (reading 'get')" |}
  | Some pnid =>
      if 2 <=? access_level pnid then ret staff_rejection
      else
        try_catch
          (let* session :=
             stripe_checkout_sessions_create
               (checkout_session_params priceId (Customer.id customer)) in
           ret {| cookies := []; reply := redirect 303 (Session.url session) |})
          (fun error =>
             ret {| cookies := [pretendo_cookie "error_message" (message error)];
                    reply := redirect 302 "/account" |})
  end.

(** *** [POST /stripe/unsubscribe] *)

(** The [updateData] object: the four tier fields, and [access_level] only
    for an account below the staff threshold. *)
Definition unsubscribe_updateData (pnid : PNID) : list SetField :=
  [ Set_subscription_id null; Set_price_id null;
    Set_tier_level (value 0); Set_tier_name null ]
  ++ (if access_level pnid <? 2 then [Set_access_level 0] else []).

Definition unsubscribe_error : Response :=
  {| cookies := [pretendo_cookie "error_message"
                   "Error canceling subscription! Contact support if issue persists"];
     reply := redirect 302 "/account" |}.

Definition unsubscribe_success (tierName : Nullable string) : Response :=
  {| cookies := [pretendo_cookie "success" ("Unsubscribed from " +:+ interpolate tierName)];
     reply := redirect 302 "/account" |}.

(** [request.pnid] is the document the login middleware loaded.  The [try]
    block falls through to the common success answer; the [catch] block
    returns its own, which [Some] marks. *)
Definition unsubscribe (pnid : PNID) : M Response :=
  let pid := pid pnid in
  let subscriptionId := subscription_id (connections_stripe pnid) in
  let tierName := tier_name (connections_stripe pnid) in
  let* returned :=
    if truthy subscriptionId then
      try_catch
        (let* _ := stripe_subscriptions_del (interpolate subscriptionId) in
         let updateData := unsubscribe_updateData pnid in
         let* _ := database_PNID_updateOne pid updateData false in
         ret None)
        (fun error =>
           let* _ :=
             logger_error
               ("Error canceling old user subscription | "
                +:+ interpolate (customer_id (connections_stripe pnid)) +:+ ", "
                +:+ pretty pid +:+ ", "
                +:+ interpolate subscriptionId +:+ " | - " +:+ message error) in
           ret (Some unsubscribe_error))
    else ret None in
  match returned with
  | Some response => ret response
  | None => ret (unsubscribe_success tierName)
  end.

(** *** [POST /stripe/webhook] *)

Definition acknowledgment : Reply := json [("received", true)].

Definition webhook (body : string) (stripeSignature : Nullable string) : M Response :=
  match webhooks_constructEvent stripe body stripeSignature (stripe_webhook_secret config) with
  | Throw err =>
      ret {| cookies := []; reply := send 400 ("Webhook Error: " +:+ message err) |}
  | Ok event =>
      let* _ := emit (util_handleStripeEvent_call event) in
      let* _ := util_handleStripeEvent event in
      ret {| cookies := []; reply := acknowledgment |}
  end.

End Routes.

Arguments result {Provider Event A} o.
Arguments world {Provider Event A} o.
Arguments effects {Provider Event A} o.

(** Modelled from the spec: the watermark comparison of the reconciler
    [util.handleStripeEvent] ([src/util.js]), whose code [account.js] only
    calls.  The spec (I3, section 4.3) has an event applied only when its
    timestamp exceeds the stored watermark, an event with a timestamp at or
    below the watermark being a no-op. *)
Definition watermark_accepts (timestamp : Z) (doc : PNID) : bool :=
  latest_webhook_timestamp (connections_stripe doc) <? timestamp.

(** ** A small provider to run the routes on *)

Module Demo.

(** Customers tagged with the PNID they were created for, and whether the
    provider can be reached. *)
Record Provider := {
  customers : list (Z * Customer.t);
  online : bool
}.

Definition unreachable : Error := {| message := "An error occurred with our connection to Stripe" |}.

Definition search (params : CustomerSearchParams) (p : Provider)
    : Result (list Customer.t) * Provider :=
  if online p then
    (Ok (map snd (filter (fun c => String.eqb (query params) (query (customer_query (fst c))))
                    (customers p))), p)
  else (Throw unreachable, p).

Definition create (params : CustomerCreateParams) (p : Provider)
    : Result Customer.t * Provider :=
  if online p then
    let c := {| Customer.id := "cus_" +:+ pretty (Z.of_nat (length (customers p))) |} in
    (Ok c, {| customers := customers p ++ [(pnid_pid (metadata params), c)];
              online := true |})
  else (Throw unreachable, p).

Definition create_session (params : SessionCreateParams) (p : Provider)
    : Result Session.t * Provider :=
  if online p then
    (Ok {| Session.url := "https://checkout.stripe.com/c/pay/" +:+ customer params |}, p)
  else (Throw unreachable, p).

Definition del (subscriptionId : string) (p : Provider) : Result unit * Provider :=
  if online p then (Ok tt, p) else (Throw unreachable, p).

(** An event is its payload; the signature is good when it repeats the
    secret. *)
Definition constructEvent (body : string) (signature : Nullable string) (secret : string)
    : Result string :=
  match signature with
  | value s =>
      if String.eqb s secret then Ok body
      else Throw {| message := "No signatures found matching the expected signature for payload" |}
  | _ => Throw {| message := "No stripe-signature header value was provided" |}
  end.

Definition stripe : @StripeAPI Provider string :=
  {| customers_search := search;
     customers_create := create;
     checkout_sessions_create := create_session;
     subscriptions_del := del;
     webhooks_constructEvent := constructEvent |}.

Definition config : Config :=
  {| http_base_url := "https://pretendo.network"; stripe_webhook_secret := "whsec_demo" |}.

(** A reconciler that accepts every event and changes nothing. *)
Definition handleStripeEvent (event : string) : @M Provider string unit := ret tt.

Definition blank : StripeConnection :=
  {| customer_id := undefined; subscription_id := undefined; price_id := undefined;
     tier_level := value 0; tier_name := undefined; latest_webhook_timestamp := 0 |}.

Definition schema_defaults : PNID :=
  {| pid := 0; access_level := 0; connections_stripe := blank |}.

(** A subscriber of tier 1, a staff member, and a user who never subscribed. *)
Definition subscriber : PNID :=
  {| pid := 1001; access_level := 1;
     connections_stripe :=
       {| customer_id := value "cus_0"; subscription_id := value "sub_1";
          price_id := value "price_1"; tier_level := value 1;
          tier_name := value "Mario"; latest_webhook_timestamp := 1700000000 |} |}.

Definition staff : PNID :=
  {| pid := 1002; access_level := 3;
     connections_stripe :=
       {| customer_id := undefined; subscription_id := value "sub_2";
          price_id := value "price_3"; tier_level := value 3;
          tier_name := value "Super Mario"; latest_webhook_timestamp := 1700000500 |} |}.

Definition newcomer : PNID :=
  {| pid := 1003; access_level := 0;
     connections_stripe :=
       {| customer_id := null; subscription_id := null; price_id := null;
          tier_level := value 0; tier_name := null; latest_webhook_timestamp := 0 |} |}.

Definition documents : gmap Z PNID :=
  <[1001 := subscriber]> (<[1002 := staff]> (<[1003 := newcomer]> ∅)).

Definition w_online : @World Provider :=
  {| db := documents;
     provider := {| customers := [(1001, {| Customer.id := "cus_0" |})]; online := true |} |}.

Definition w_offline : @World Provider :=
  {| db := documents;
     provider := {| customers := [(1001, {| Customer.id := "cus_0" |})]; online := false |} |}.

Definition account_of (d : PNID) (mail : string) : Account :=
  {| account_pid := pid d; email := {| address := mail |} |}.

End Demo.

(** * The other routes of [account.js] *)

(** ** Login, registration and logout *)

(** What a page route does to the response before it ends it:
    [response.cookie(name, value, { domain })] and
    [response.clearCookie(name, { domain })], with the JavaScript value the
    route passes. *)
Inductive CookieOp :=
| cookie_set (name : string) (val : Nullable string) (domain : string)
| cookie_clear (name : string) (domain : string).

Inductive Ending :=
| end_redirect (location : string)
| end_render (view : string) (renderData : list (string * Nullable string)).

Record PageResponse := {
  cookie_ops : list CookieOp;
  console_log : list Error;
  ending : Ending
}.

(** The token object [util.login] and [util.register] resolve to. *)
Record Tokens := {
  refresh_token : Nullable string;
  access_token : Nullable string;
  token_type : Nullable string
}.

(** The object [POST /register] hands to [util.register]. *)
Record Registration := {
  reg_email : Nullable string;
  reg_username : Nullable string;
  reg_mii_name : Nullable string;
  reg_password : Nullable string;
  reg_password_confirm : Nullable string;
  reg_hCaptchaResponse : Nullable string
}.

(** [v || fallback] for a string-or-absent [v]. *)
Definition or_else (v : Nullable string) (fallback : string) : string :=
  if truthy v then interpolate v else fallback.

(** [request.cookies.name]: [undefined] when the browser sent no such
    cookie. *)
Definition request_cookie (cookies : gmap string string) (name : string) : Nullable string :=
  match cookies !! name with
  | Some v => value v
  | None => undefined
  end.

Section Pages.

(** [util.login] and [util.register] call the account server; the routes
    only see whether they resolve to tokens or reject. *)
Variable util_login : Nullable string -> Nullable string -> Result Tokens.
Variable util_register : Registration -> Result Tokens.

(** [GET /login]. *)
Definition get_login : PageResponse :=
  {| cookie_ops := []; console_log := []; ending := end_render "account/login" [] |}.

(** [POST /login]; [request_redirect] is [request.redirect]. *)
Definition post_login (username password request_redirect : Nullable string) : PageResponse :=
  match util_login username password with
  | Ok tokens =>
      {| cookie_ops :=
           [ cookie_set "refresh_token" (refresh_token tokens) ".pretendo.network";
             cookie_set "access_token" (access_token tokens) ".pretendo.network";
             cookie_set "token_type" (token_type tokens) ".pretendo.network" ];
         console_log := [];
         ending := end_redirect (or_else request_redirect "/account") |}
  | Throw error =>
      {| cookie_ops :=
           [ cookie_set "error_message" (value (message error)) ".pretendo.network" ];
         console_log := [error];
         ending := end_redirect "/account/login" |}
  end.

(** [GET /register]: the form is filled from the cookies a failed attempt
    left, and those cookies are dropped. *)
Definition get_register (cookies : gmap string string) : PageResponse :=
  {| cookie_ops :=
       [ cookie_clear "email" ".pretendo.network";
         cookie_clear "username" ".pretendo.network";
         cookie_clear "mii_name" ".pretendo.network" ];
     console_log := [];
     ending :=
       end_render "account/register"
         [ ("email", request_cookie cookies "email");
           ("username", request_cookie cookies "username");
           ("mii_name", request_cookie cookies "mii_name") ] |}.

(** [POST /register]. *)
Definition post_register (body : Registration) (request_redirect : Nullable string)
    : PageResponse :=
  let form :=
    [ cookie_set "email" (reg_email body) ".pretendo.network";
      cookie_set "username" (reg_username body) ".pretendo.network";
      cookie_set "mii_name" (reg_mii_name body) ".pretendo.network" ] in
  match util_register body with
  | Ok tokens =>
      {| cookie_ops :=
           form ++
           [ cookie_set "refresh_token" (refresh_token tokens) ".pretendo.network";
             cookie_set "access_token" (access_token tokens) ".pretendo.network";
             cookie_set "token_type" (token_type tokens) ".pretendo.network";
             cookie_clear "email" ".pretendo.network";
             cookie_clear "username" ".pretendo.network";
             cookie_clear "mii_name" ".pretendo.network" ];
         console_log := [];
         ending := end_redirect (or_else request_redirect "/account") |}
  | Throw error =>
      {| cookie_ops :=
           form ++
           [ cookie_set "error_message" (value (message error)) ".pretendo.network" ];
         console_log := [];
         ending := end_redirect "/account/register" |}
  end.

(** [GET /logout]. *)
Definition get_logout : PageResponse :=
  {| cookie_ops :=
       [ cookie_clear "refresh_token" ".pretendo.network";
         cookie_clear "access_token" ".pretendo.network";
         cookie_clear "token_type" ".pretendo.network" ];
     console_log := [];
     ending := end_redirect "/" |}.

End Pages.

(** ** [POST /online-files]: the Cemu account files *)

(** *** Buffers *)

(** The byte holding the low eight bits of [z]. *)
Definition byte_of (z : Z) : Byte.byte :=
  match Byte.of_N (Z.to_N (Z.land z 255)) with
  | Some b => b
  | None => Byte.x00
  end.

(** [Buffer.alloc(size)]: [size] zero bytes. *)
Definition Buffer_alloc (size : nat) : list Byte.byte := repeat Byte.x00 size.

(** [Buffer.from(s, 'utf16le')] for a JavaScript string given as its UTF-16
    code units: each unit is written low byte first. *)
Definition Buffer_from_utf16le (s : list Z) : list Byte.byte :=
  flat_map (fun unit => [byte_of unit; byte_of (Z.shiftr unit 8)]) s.

Fixpoint swap_pairs (buffer : list Byte.byte) : list Byte.byte :=
  match buffer with
  | a :: b :: rest => b :: a :: swap_pairs rest
  | _ => buffer
  end.

(** [buffer.swap16()]: every pair of bytes is swapped; a buffer of odd length
    makes it throw. *)
Definition Buffer_swap16 (buffer : list Byte.byte) : Result (list Byte.byte) :=
  if Nat.even (length buffer) then Ok (swap_pairs buffer)
  else Throw {| message := "Buffer size must be a multiple of 16-bits" |}.

(** [source.copy(target)]: the bytes of [source] overwrite the start of
    [target], as many as fit; the value is [target] afterwards. *)
Definition Buffer_copy (source target : list Byte.byte) : list Byte.byte :=
  firstn (length target) source ++ skipn (length source) target.

Definition hex_digit (n : N) : ascii :=
  match n with
  | 0 => "0" | 1 => "1" | 2 => "2" | 3 => "3" | 4 => "4" | 5 => "5" | 6 => "6"
  | 7 => "7" | 8 => "8" | 9 => "9" | 10 => "a" | 11 => "b" | 12 => "c"
  | 13 => "d" | 14 => "e" | _ => "f"
  end%N%char.

(** [buffer.toString('hex')]: two lower-case digits per byte. *)
Fixpoint Buffer_toString_hex (buffer : list Byte.byte) : string :=
  match buffer with
  | [] => ""
  | b :: rest =>
      String (hex_digit (Byte.to_N b / 16))
        (String (hex_digit (Byte.to_N b mod 16)) (Buffer_toString_hex rest))
  end.

(** [Buffer.from(s)] for a string kept as its UTF-8 bytes. *)
Definition Buffer_from (s : string) : list Byte.byte := list_byte_of_string s.

(** [n.toString(16)] for an integer. *)
Definition Number_toString_16 (n : Z) : string :=
  NilZero.string_of_int (Z.to_hex_int n).

(** [s.replace(/-/g, '')]. *)
Fixpoint remove_hyphens (s : string) : string :=
  match s with
  | EmptyString => EmptyString
  | String c rest =>
      if Ascii.eqb c "-" then remove_hyphens rest else String c (remove_hyphens rest)
  end.

Definition LF : string := String "010" "".
Definition double_quote : string := String "034" "".

(** *** The route *)

Module Mii.
Record t := {
  name : list Z;
  data : string
}.
End Mii.

(** [request.account] with the further members this route reads:
    [account.username], [account.mii.name] (as UTF-16 code units) and
    [account.mii.data] (base64 text). *)
Record Profile := {
  profile_account : Account;
  username : string;
  mii : Mii.t
}.

Record ZipEntry := { entry_name : string; entry_data : list Byte.byte }.

Record FileResponse := {
  file_status : Z;
  file_headers : list (string * string);
  file_body : list Byte.byte
}.

(** Lines 182 to 184: the Mii name in a zeroed buffer of [0x16] bytes. *)
Definition miiNameBuffer (name : list Z) : Result (list Byte.byte) :=
  let target := Buffer_alloc 22 in
  match Buffer_swap16 (Buffer_from_utf16le name) with
  | Ok miiName => Ok (Buffer_copy miiName target)
  | Throw e => Throw e
  end.

(** Lines 186 to 202: the text of [account.dat]. *)
Definition accountDat (uuid miiData miiName accountId emailAddress principalId
    hashedPassword : string) : string :=
  "AccountInstance_00000000" +:+ LF +:+
  "PersistentId=80000001" +:+ LF +:+
  "TransferableIdBase=0" +:+ LF +:+
  "Uuid=" +:+ remove_hyphens uuid +:+ LF +:+
  "MiiData=" +:+ miiData +:+ LF +:+
  "MiiName=" +:+ miiName +:+ LF +:+
  "AccountId=" +:+ accountId +:+ LF +:+
  "BirthYear=0" +:+ LF +:+
  "BirthMonth=0" +:+ LF +:+
  "BirthDay=0" +:+ LF +:+
  "Gender=0" +:+ LF +:+
  "EmailAddress=" +:+ emailAddress +:+ LF +:+
  "Country=0" +:+ LF +:+
  "SimpleAddressId=0" +:+ LF +:+
  "PrincipalId=" +:+ principalId +:+ LF +:+
  "IsPasswordCacheEnabled=1" +:+ LF +:+
  "AccountPasswordCache=" +:+ hashedPassword.

Section OnlineFiles.

(** [util.nintendoPasswordHash] of [src/util.js]; it may throw. *)
Variable util_nintendoPasswordHash : Nullable string -> Z -> Result string.

(** [Buffer.from(s, 'base64')] and [AdmZip#toBuffer] are the libraries'. *)
Variable Buffer_from_base64 : string -> list Byte.byte.
Variable AdmZip_toBuffer : list ZipEntry -> list Byte.byte.

(** The three entries added to the archive, in the order of [addFile]. *)
Definition onlineFiles (dat : string) : list ZipEntry :=
  [ {| entry_name := "mlc01/usr/save/system/act/80000001/account.dat";
       entry_data := Buffer_from dat |};
    {| entry_name := "otp.bin"; entry_data := Buffer_alloc 1024 |};
    {| entry_name := "seeprom.bin"; entry_data := Buffer_alloc 512 |} ].

(** The route; [uuid] is what [uuidv4()] returns for this request. *)
Definition online_files (profile : Profile) (password : Nullable string) (uuid : string)
    : Result FileResponse :=
  let account := profile_account profile in
  match util_nintendoPasswordHash password (account_pid account) with
  | Throw e => Throw e
  | Ok hashedPassword =>
      match miiNameBuffer (Mii.name (mii profile)) with
      | Throw e => Throw e
      | Ok nameBuffer =>
          let dat :=
            accountDat uuid
              (Buffer_toString_hex (Buffer_from_base64 (Mii.data (mii profile))))
              (Buffer_toString_hex nameBuffer)
              (username profile)
              (address (email account))
              (Number_toString_16 (account_pid account))
              hashedPassword in
          Ok {| file_status := 200;
                file_headers :=
                  [ ("Content-Disposition",
                     "attachment; filename=" +:+ double_quote
                     +:+ "Cemu Pretendo Online Files.zip");
                    ("Content-Type", "application/zip") ];
                file_body := AdmZip_toBuffer (onlineFiles dat) |}
      end
  end.

End OnlineFiles.

(** ** [GET /miieditor]: the editor tables *)

(** [editorToHex]: for each part of a Mii, the value stored in the Mii data
    for every slot of every page of the editor. *)
Record EditorToHex := {
  face : list Z;
  hairs : list (list Z);
  eyebrows : list (list Z);
  eyes : list (list Z);
  nose : list (list Z);
  mouth : list (list Z)
}.

Definition editorToHex : EditorToHex :=
  {| face := [0x00;0x01;0x08;0x02;0x03;0x09;0x04;0x05;0x0a;0x06;0x07;0x0b];
     hairs :=
       [ [0x21;0x2f;0x28;0x25;0x20;0x6b;0x30;0x33;0x37;0x46;0x2c;0x42];
         [0x34;0x32;0x26;0x31;0x2b;0x1f;0x38;0x44;0x3e;0x73;0x4c;0x77];
         [0x40;0x51;0x74;0x79;0x16;0x3a;0x3c;0x57;0x7d;0x75;0x49;0x4b];
         [0x2a;0x59;0x39;0x36;0x50;0x22;0x17;0x56;0x58;0x76;0x27;0x24];
         [0x2d;0x43;0x3b;0x41;0x29;0x1e;0x0c;0x10;0x0a;0x52;0x80;0x81];
         [0x0e;0x5f;0x69;0x64;0x06;0x14;0x5d;0x66;0x1b;0x04;0x11;0x6e];
         [0x7b;0x08;0x6a;0x48;0x03;0x15;0x00;0x62;0x3f;0x5a;0x0b;0x78];
         [0x05;0x4a;0x6c;0x5e;0x7c;0x19;0x63;0x45;0x23;0x0d;0x7a;0x71];
         [0x35;0x18;0x55;0x53;0x47;0x83;0x60;0x65;0x1d;0x07;0x0f;0x70];
         [0x4f;0x01;0x6d;0x7f;0x5b;0x1a;0x3d;0x67;0x02;0x4d;0x12;0x5c];
         [0x54;0x09;0x13;0x82;0x61;0x68;0x2e;0x4e;0x1c;0x72;0x7e;0x6f] ];
     eyebrows :=
       [ [0x06;0x00;0x0c;0x01;0x09;0x13;0x07;0x15;0x08;0x11;0x05;0x04];
         [0x0b;0x0a;0x02;0x03;0x0e;0x14;0x0f;0x0d;0x16;0x12;0x10;0x17] ];
     eyes :=
       [ [0x02;0x04;0x00;0x08;0x27;0x11;0x01;0x1a;0x10;0x0f;0x1b;0x14];
         [0x21;0x0b;0x13;0x20;0x09;0x0c;0x17;0x22;0x15;0x19;0x28;0x23];
         [0x05;0x29;0x0d;0x24;0x25;0x06;0x18;0x1e;0x1f;0x12;0x1c;0x2e];
         [0x07;0x2c;0x26;0x2a;0x2d;0x1d;0x03;0x2b;0x16;0x0a;0x0e;0x2f];
         [0x30;0x31;0x32;0x35;0x3b;0x38;0x36;0x3a;0x39;0x37;0x33;0x34] ];
     nose :=
       [ [0x01;0x0a;0x02;0x03;0x06;0x00;0x05;0x04;0x08;0x09;0x07;0x0B];
         [0x0d;0x0e;0x0c;0x11;0x10;0x0f] ];
     mouth :=
       [ [0x17;0x01;0x13;0x15;0x16;0x05;0x00;0x08;0x0a;0x10;0x06;0x0d];
         [0x07;0x09;0x02;0x11;0x03;0x04;0x0f;0x0b;0x14;0x12;0x0e;0x0c];
         [0x1b;0x1e;0x18;0x19;0x1d;0x1c;0x1a;0x23;0x1f;0x22;0x21;0x20] ] |}.

(** What the route hands to the [account/miieditor] view. *)
Record MiiEditorData := {
  encodedUserMiiData : string;
  editor_tables : EditorToHex
}.

Definition get_miieditor (profile : Profile) : string * MiiEditorData :=
  ("account/miieditor",
   {| encodedUserMiiData := Mii.data (mii profile); editor_tables := editorToHex |}).

(** ** More inputs to run the routes on *)

Module Demo2.

(** A document whose subscription identifier is the empty string. *)
Definition lapsed : PNID :=
  {| pid := 1004; access_level := 1;
     connections_stripe :=
       {| customer_id := value "cus_9"; subscription_id := value "";
          price_id := null; tier_level := value 0; tier_name := null;
          latest_webhook_timestamp := 0 |} |}.

(** The copy of the staff document a request still carries from before the
    promotion to staff. *)
Definition staff_before_promotion : PNID :=
  {| pid := 1002; access_level := 1;
     connections_stripe := connections_stripe Demo.staff |}.

(** A user the collection holds no document for. *)
Definition stranger : Account :=
  {| account_pid := 2000; email := {| address := "toad@pretendo.network" |} |}.

(** A provider that answers every call but refuses to create sessions. *)
Definition refuse_session (params : SessionCreateParams) (p : Demo.Provider)
    : Result Session.t * Demo.Provider :=
  (Throw {| message := "No such price: '" +:+ customer params +:+ "'" |}, p).

Definition stripe_without_sessions : @StripeAPI Demo.Provider string :=
  {| customers_search := Demo.search;
     customers_create := Demo.create;
     checkout_sessions_create := refuse_session;
     subscriptions_del := Demo.del;
     webhooks_constructEvent := Demo.constructEvent |}.

(** An account server on which every registration is rejected. *)
Definition register_rejects (body : Registration) : Result Tokens :=
  Throw {| message := "Username is already taken" |}.

Definition login_rejects (username password : Nullable string) : Result Tokens :=
  Throw {| message := "Invalid username or password" |}.

Definition submitted : Registration :=
  {| reg_email := value "peach@pretendo.network";
     reg_username := value "peach";
     reg_mii_name := value "Peach";
     reg_password := value "hunter2";
     reg_password_confirm := value "hunter2";
     reg_hCaptchaResponse := undefined |}.

(** The name "Mario" as UTF-16 code units. *)
Definition mario : list Z := [77; 97; 114; 105; 111].

End Demo2.

(** ** The checkout route over a collection that may reject *)

Section CheckoutOnAnyStore.

Context {Provider Event : Type}.
Variable stripe : @StripeAPI Provider Event.
Variable config : Config.

(** The two calls the checkout route awaits on the PNID collection, lines
    329 to 334 and line 338, as any collection may answer them: each may
    reject, and neither sits inside a [try]. *)
Variable PNID_updateOne : Z -> list SetField -> bool -> @M Provider Event unit.
Variable PNID_findOne : Z -> @M Provider Event (option PNID).

Local Notation "'let*' x ':=' m 'in' k" := (bind m (fun x => k))
  (at level 10, x name, m at level 100, k at level 200, only parsing).

(** [POST /stripe/checkout/:priceId], word for word as [checkout], with the
    collection left open. *)
Definition checkout_with (account : Account) (priceId : string) : M Response :=
  let pid := account_pid account in
  let* customer := customer_resolution stripe account in
  let* _ := PNID_updateOne pid (checkout_updateData customer) true in
  let* pnid := PNID_findOne pid in
  match pnid with
  | None => throw {| message := "Cannot read properties of null (reading 'get')" |}
  | Some pnid =>
      if 2 <=? access_level pnid then ret staff_rejection
      else
        try_catch
          (let* session :=
             stripe_checkout_sessions_create stripe
               (checkout_session_params config priceId (Customer.id customer)) in
           ret {| cookies := []; reply := redirect 303 (Session.url session) |})
          (fun error =>
             ret {| cookies := [pretendo_cookie "error_message" (message error)];
                    reply := redirect 302 "/account" |})
  end.

End CheckoutOnAnyStore.

Module Demo3.

(** A collection whose update is rejected, as when the database is down. *)
Definition updateOne_rejects (filter_pid : Z) (fields : list SetField) (upsert : bool)
    : @M Demo.Provider string unit :=
  throw {| message := "connection timed out" |}.

End Demo3.

(** * Properties of the routes *)

Section Properties.

Context {Provider Event : Type}.
Variable stripe : @StripeAPI Provider Event.
Variable config : Config.
Variable util_handleStripeEvent : Event -> @M Provider Event unit.
Variable PNID_schema_defaults : PNID.

Local Abbreviation World := (@World Provider).
Local Abbreviation customer_resolution := (customer_resolution stripe).
Local Abbreviation checkout := (checkout stripe config PNID_schema_defaults).
Local Abbreviation unsubscribe := (unsubscribe stripe PNID_schema_defaults).
Local Abbreviation webhook := (webhook stripe config util_handleStripeEvent).
Local Abbreviation updateOne := (updateOne PNID_schema_defaults).
Local Abbreviation checkout_session_params := (checkout_session_params config).

Implicit Types (w : World) (pnid doc : PNID) (account : Account).

(** ** Documents under [$set] *)

Lemma truthy_value (s : Nullable string) :
  truthy s = true -> exists sid, s = value sid /\ sid <> "" /\ interpolate s = sid.
Proof.
  destruct s as [| |[|a r]]; simpl; try discriminate.
  intros _. exists (String a r). repeat split. discriminate.
Qed.

Lemma truthy_nonempty (sid : string) : sid <> "" -> truthy (value sid) = true.
Proof. destruct sid; [congruence | reflexivity]. Qed.

Lemma pid_apply_sets fields doc : pid (apply_sets fields doc) = pid doc.
Proof.
  unfold apply_sets. revert doc.
  induction fields as [|f fields IH]; intros doc; simpl; [reflexivity|].
  rewrite IH. destruct f; reflexivity.
Qed.

(** The document [updateData] leaves behind. *)
Lemma apply_unsubscribe_updateData pnid doc :
  apply_sets (unsubscribe_updateData pnid) doc =
  {| pid := pid doc;
     access_level := if access_level pnid <? 2 then 0 else access_level doc;
     connections_stripe :=
       {| customer_id := customer_id (connections_stripe doc);
          subscription_id := null;
          price_id := null;
          tier_level := value 0;
          tier_name := null;
          latest_webhook_timestamp := latest_webhook_timestamp (connections_stripe doc) |} |}.
Proof.
  unfold unsubscribe_updateData.
  destruct (access_level pnid <? 2); reflexivity.
Qed.

Lemma access_level_in_updateData pnid v :
  In (Set_access_level v) (unsubscribe_updateData pnid) <-> access_level pnid < 2 /\ v = 0.
Proof.
  unfold unsubscribe_updateData.
  destruct (Z.ltb_spec (access_level pnid) 2) as [Hlt|Hge]; simpl; split.
  - intros [H|[H|[H|[H|[H|[]]]]]]; try discriminate. injection H as <-. auto.
  - intros [_ ->]. auto 6.
  - intros [H|[H|[H|[H|[]]]]]; discriminate.
  - intros [Hlt _]. lia.
Qed.

(** ** The three ways an unsubscribe request runs *)

Lemma unsubscribe_nothing_to_cancel pnid w :
  truthy (subscription_id (connections_stripe pnid)) = false ->
  unsubscribe pnid w =
  {| result := Ok (unsubscribe_success (tier_name (connections_stripe pnid)));
     world := w; effects := [] |}.
Proof.
  intros Hfalsy. unfold unsubscribe. rewrite Hfalsy. reflexivity.
Qed.

Lemma unsubscribe_cancelled pnid w sid p' :
  subscription_id (connections_stripe pnid) = value sid -> sid <> "" ->
  subscriptions_del stripe sid (provider w) = (Ok tt, p') ->
  unsubscribe pnid w =
  {| result := Ok (unsubscribe_success (tier_name (connections_stripe pnid)));
     world := {| db := updateOne (pid pnid) (unsubscribe_updateData pnid) false (db w);
                 provider := p' |};
     effects := [ stripe_subscriptions_del_call sid;
                  database_PNID_updateOne_call (pid pnid) (unsubscribe_updateData pnid) false ] |}.
Proof.
  intros Hsid Hne Hdel.
  unfold unsubscribe, bind, try_catch, stripe_subscriptions_del, stripe_call.
  rewrite Hsid, (truthy_nonempty sid Hne). simpl. rewrite Hdel. reflexivity.
Qed.

Lemma unsubscribe_refused pnid w sid e p' :
  subscription_id (connections_stripe pnid) = value sid -> sid <> "" ->
  subscriptions_del stripe sid (provider w) = (Throw e, p') ->
  exists msg,
    unsubscribe pnid w =
    {| result := Ok unsubscribe_error;
       world := {| db := db w; provider := p' |};
       effects := [ stripe_subscriptions_del_call sid; logger_error_call msg ] |}.
Proof.
  intros Hsid Hne Hdel. eexists.
  unfold unsubscribe, bind, try_catch, stripe_subscriptions_del, stripe_call.
  rewrite Hsid, (truthy_nonempty sid Hne). simpl. rewrite Hdel. reflexivity.
Qed.

(** The provider is asked to cancel exactly when the stored identifier is a
    non-empty string. *)
Lemma unsubscribe_del_called pnid w sid :
  In (stripe_subscriptions_del_call sid) (effects (unsubscribe pnid w)) ->
  subscription_id (connections_stripe pnid) = value sid /\ sid <> "".
Proof.
  destruct (truthy (subscription_id (connections_stripe pnid))) eqn:Ht.
  - destruct (truthy_value _ Ht) as (sid' & Hsid & Hne & _).
    destruct (subscriptions_del stripe sid' (provider w)) as [[[]|e] p'] eqn:Hdel.
    + rewrite (unsubscribe_cancelled _ _ _ _ Hsid Hne Hdel). simpl.
      intros [H|[H|[]]]; [|discriminate]. injection H as <-. auto.
    + destruct (unsubscribe_refused _ _ _ _ _ Hsid Hne Hdel) as [msg ->]. simpl.
      intros [H|[H|[]]]; [|discriminate]. injection H as <-. auto.
  - rewrite (unsubscribe_nothing_to_cancel _ _ Ht). intros [].
Qed.

Lemma error_is_not_success tierName : unsubscribe_error <> unsubscribe_success tierName.
Proof. unfold unsubscribe_error, unsubscribe_success. intros H. discriminate H. Qed.

(** ** The collection under [updateOne] *)

Lemma updateOne_stored filter_pid fields upsert (docs : gmap Z PNID) doc :
  docs !! filter_pid = Some doc ->
  updateOne filter_pid fields upsert docs = <[filter_pid := apply_sets fields doc]> docs.
Proof. intros H. unfold updateOne. rewrite H. reflexivity. Qed.

Lemma updateOne_upsert_lookup filter_pid fields (docs : gmap Z PNID) :
  updateOne filter_pid fields true docs !! filter_pid =
  Some (apply_sets fields
          (match docs !! filter_pid with
           | Some doc => doc
           | None => new_document PNID_schema_defaults filter_pid
           end)).
Proof.
  unfold updateOne.
  destruct (docs !! filter_pid); apply lookup_insert_eq.
Qed.

Lemma updateOne_other filter_pid fields upsert (docs : gmap Z PNID) other :
  other <> filter_pid ->
  updateOne filter_pid fields upsert docs !! other = docs !! other.
Proof.
  intros Hne. unfold updateOne.
  destruct (docs !! filter_pid); [|destruct upsert]; try reflexivity;
    apply lookup_insert_ne; congruence.
Qed.

Lemma no_subscription_result pnid w :
  subscription_id (connections_stripe pnid) = null ->
  result (unsubscribe pnid w)
    = Ok (unsubscribe_success (tier_name (connections_stripe pnid))).
Proof.
  intros Hnull. rewrite unsubscribe_nothing_to_cancel; [reflexivity|].
  rewrite Hnull. reflexivity.
Qed.

(** ** Claims about the unsubscribe handler *)

(** C5. On an account whose [subscription_id] is [null], an unsubscribe
    request answers with the success response, makes no call at all (so the
    provider is not asked anything) and leaves the world, hence every account
    field, as it was. *)
Theorem unsubscribe_without_subscription_is_noop pnid w :
  subscription_id (connections_stripe pnid) = null ->
  unsubscribe pnid w =
  {| result := Ok (unsubscribe_success (tier_name (connections_stripe pnid)));
     world := w;
     effects := [] |}.
Proof.
  intros Hnull. apply unsubscribe_nothing_to_cancel. rewrite Hnull. reflexivity.
Qed.

(** C4. On an account with an active subscription, when the provider rejects
    the cancellation the collection is left untouched, no update is issued,
    and the caller receives the error response, which differs from the
    response of every request that had no subscription to cancel. *)
Theorem unsubscribe_provider_failure_no_mutation pnid w sid e p' :
  subscription_id (connections_stripe pnid) = value sid -> sid <> "" ->
  subscriptions_del stripe sid (provider w) = (Throw e, p') ->
  db (world (unsubscribe pnid w)) = db w /\
  (forall filter_pid fields upsert,
     ~ In (database_PNID_updateOne_call filter_pid fields upsert)
          (effects (unsubscribe pnid w))) /\
  result (unsubscribe pnid w) = Ok unsubscribe_error /\
  (forall pnid0 w0,
     subscription_id (connections_stripe pnid0) = null ->
     result (unsubscribe pnid0 w0)
       = Ok (unsubscribe_success (tier_name (connections_stripe pnid0))) /\
     result (unsubscribe pnid0 w0) <> result (unsubscribe pnid w)).
Proof.
  intros Hsid Hne Hdel.
  destruct (unsubscribe_refused _ _ _ _ _ Hsid Hne Hdel) as [msg Hrun].
  rewrite Hrun. simpl. split; [reflexivity|]. split; [|split; [reflexivity|]].
  - intros filter_pid fields upsert [H|[H|[]]]; discriminate.
  - intros pnid0 w0 Hnull.
    rewrite (no_subscription_result _ _ Hnull).
    split; [reflexivity|].
    intros H. apply (error_is_not_success (tier_name (connections_stripe pnid0))).
    congruence.
Qed.

(** C3. On an account whose stored [subscription_id] is not null, when the
    cancellation succeeds (the handler asked the provider to cancel that
    subscription and the provider answered without error), the handler issues
    exactly one update, right after the cancellation, and that update puts the
    stored document in the unsubscribed state: [subscription_id], [price_id]
    and [tier_name] are null, [tier_level] is 0, and [access_level] is reset
    to 0 exactly when it was below 2; nothing else of the document changes. *)
Theorem unsubscribe_success_applies_unsubscribed pnid w sid p' :
  subscription_id (connections_stripe pnid) = value sid ->
  db w !! pid pnid = Some pnid ->
  In (stripe_subscriptions_del_call sid) (effects (unsubscribe pnid w)) ->
  subscriptions_del stripe sid (provider w) = (Ok tt, p') ->
  effects (unsubscribe pnid w) =
    [ stripe_subscriptions_del_call sid;
      database_PNID_updateOne_call (pid pnid) (unsubscribe_updateData pnid) false ] /\
  db (world (unsubscribe pnid w)) =
    <[ pid pnid :=
       {| pid := pid pnid;
          access_level := if access_level pnid <? 2 then 0 else access_level pnid;
          connections_stripe :=
            {| customer_id := customer_id (connections_stripe pnid);
               subscription_id := null;
               price_id := null;
               tier_level := value 0;
               tier_name := null;
               latest_webhook_timestamp :=
                 latest_webhook_timestamp (connections_stripe pnid) |} |} ]> (db w) /\
  (In (Set_access_level 0) (unsubscribe_updateData pnid) <-> access_level pnid < 2) /\
  (forall v, In (Set_access_level v) (unsubscribe_updateData pnid) -> v = 0).
Proof.
  intros Hsid Hstored Hcalled Hdel.
  destruct (unsubscribe_del_called _ _ _ Hcalled) as [_ Hne].
  pose proof (unsubscribe_cancelled _ _ _ _ Hsid Hne Hdel) as Hrun.
  split; [rewrite Hrun; reflexivity|]. split; [|split].
  - rewrite Hrun. cbn [world db].
    rewrite (updateOne_stored _ _ _ _ _ Hstored), apply_unsubscribe_updateData.
    reflexivity.
  - rewrite access_level_in_updateData. intuition.
  - intros v Hv. apply access_level_in_updateData in Hv. tauto.
Qed.

(** ** The ways a checkout request runs *)

Lemma customer_resolution_run account w :
  let q := customer_query (account_pid account) in
  let n := {| create_email := address (email account);
              metadata := {| pnid_pid := account_pid account |} |} in
  (exists e p1,
     customers_search stripe q (provider w) = (Throw e, p1) /\
     customer_resolution account w =
     {| result := Throw e; world := {| db := db w; provider := p1 |};
        effects := [stripe_customers_search_call q] |})
  \/
  (exists found rest p1,
     customers_search stripe q (provider w) = (Ok (found :: rest), p1) /\
     customer_resolution account w =
     {| result := Ok found; world := {| db := db w; provider := p1 |};
        effects := [stripe_customers_search_call q] |})
  \/
  (exists p1 r p2,
     customers_search stripe q (provider w) = (Ok [], p1) /\
     customers_create stripe n p1 = (r, p2) /\
     customer_resolution account w =
     {| result := r; world := {| db := db w; provider := p2 |};
        effects := [stripe_customers_search_call q; stripe_customers_create_call n] |}).
Proof.
  intros q n.
  unfold customer_resolution, bind, stripe_customers_search, stripe_customers_create,
    stripe_call, ret. fold q. fold n.
  destruct (customers_search stripe q (provider w)) as [[[|found rest]|e] p1] eqn:Hsearch;
    simpl.
  - right. right.
    destruct (customers_create stripe n p1) as [r p2] eqn:Hcreate.
    exists p1, r, p2. split; [reflexivity|]. split; [exact Hcreate|].
    destruct r; reflexivity.
  - right. left. exists found, rest, p1. split; reflexivity.
  - left. exists e, p1. split; reflexivity.
Qed.

Lemma customer_resolution_db account w :
  db (world (customer_resolution account w)) = db w.
Proof.
  destruct (customer_resolution_run account w)
    as [(e & p1 & _ & ->)|[(c & rest & p1 & _ & ->)|(p1 & r & p2 & _ & _ & ->)]];
    reflexivity.
Qed.

(** What follows a resolved customer: the upsert, then the staff gate, then
    the session. *)
Lemma checkout_run account priceId w :
  let o := customer_resolution account w in
  let pid := account_pid account in
  match result o with
  | Throw e =>
      checkout account priceId w =
      {| result := Throw e; world := world o; effects := effects o |}
  | Ok c =>
      let docs := updateOne pid (checkout_updateData c) true (db w) in
      let update := database_PNID_updateOne_call pid (checkout_updateData c) true in
      let params := checkout_session_params priceId (Customer.id c) in
      exists doc,
        docs !! pid = Some doc /\
        if 2 <=? access_level doc then
          checkout account priceId w =
          {| result := Ok staff_rejection;
             world := {| db := docs; provider := provider (world o) |};
             effects := effects o ++ [update] |}
        else
          exists r p2,
            checkout_sessions_create stripe params (provider (world o)) = (r, p2) /\
            checkout account priceId w =
            {| result :=
                 Ok (match r with
                     | Ok session =>
                         {| cookies := []; reply := redirect 303 (Session.url session) |}
                     | Throw error =>
                         {| cookies := [pretendo_cookie "error_message" (message error)];
                            reply := redirect 302 "/account" |}
                     end);
               world := {| db := docs; provider := p2 |};
               effects := effects o ++ [update; stripe_checkout_sessions_create_call params] |}
  end.
Proof.
  intros o pid.
  pose proof (customer_resolution_db account w) as Hdb. fold o in Hdb.
  unfold checkout, bind. fold o. fold pid.
  destruct (result o) as [c|e] eqn:Hres; [|reflexivity].
  simpl. rewrite Hdb.
  rewrite updateOne_upsert_lookup. eexists. split; [reflexivity|].
  match goal with |- context [2 <=? ?a] => destruct (2 <=? a) end.
  - simpl. reflexivity.
  - unfold try_catch, bind, stripe_checkout_sessions_create, stripe_call. simpl.
    destruct (checkout_sessions_create stripe _ (provider (world o))) as [[session|error] p2];
      eexists _, _; (split; [reflexivity|]); simpl; reflexivity.
Qed.

Lemma apply_checkout_updateData c doc :
  apply_sets (checkout_updateData c) doc =
  {| pid := pid doc;
     access_level := access_level doc;
     connections_stripe :=
       {| customer_id := value (Customer.id c);
          subscription_id := subscription_id (connections_stripe doc);
          price_id := price_id (connections_stripe doc);
          tier_level := tier_level (connections_stripe doc);
          tier_name := tier_name (connections_stripe doc);
          latest_webhook_timestamp := 0 |} |}.
Proof. reflexivity. Qed.

(** The resolver only ever issues the search and the creation. *)
Lemma customer_resolution_effects account w e :
  In e (effects (customer_resolution account w)) ->
  (exists q, e = stripe_customers_search_call q) \/
  (exists n, e = stripe_customers_create_call n).
Proof.
  destruct (customer_resolution_run account w)
    as [(e' & p1 & _ & ->)|[(c & rest & p1 & _ & ->)|(p1 & r & p2 & _ & _ & ->)]];
    simpl; intros H; repeat (destruct H as [<-|H]; eauto); destruct H.
Qed.

(** Once the customer is resolved the upsert follows at once, and at most the
    session creation comes after it. *)
Lemma checkout_persists account priceId w c :
  result (customer_resolution account w) = Ok c ->
  let pid := account_pid account in
  db (world (checkout account priceId w))
    = updateOne pid (checkout_updateData c) true (db w) /\
  exists after,
    effects (checkout account priceId w) =
      (effects (customer_resolution account w)
       ++ database_PNID_updateOne_call pid (checkout_updateData c) true :: after)%list /\
    (after = [] \/
     after = [stripe_checkout_sessions_create_call
                (checkout_session_params priceId (Customer.id c))]).
Proof.
  intros Hres pid.
  pose proof (checkout_run account priceId w) as Hrun. cbv zeta in Hrun.
  rewrite Hres in Hrun. destruct Hrun as (doc & _ & Hrun).
  destruct (2 <=? access_level doc).
  - rewrite Hrun. simpl. split; [reflexivity|]. exists []. auto.
  - destruct Hrun as (r & p2 & _ & ->). simpl. split; [reflexivity|]. eauto.
Qed.

(** When the resolver fails the request fails with it, and nothing is
    stored. *)
Lemma checkout_unresolved account priceId w e :
  result (customer_resolution account w) = Throw e ->
  checkout account priceId w =
  {| result := Throw e;
     world := world (customer_resolution account w);
     effects := effects (customer_resolution account w) |}.
Proof.
  intros Hres.
  pose proof (checkout_run account priceId w) as Hrun. cbv zeta in Hrun.
  rewrite Hres in Hrun. exact Hrun.
Qed.

(** Whatever happens, the stored document of the account is either untouched
    or has exactly [customer_id] and the watermark rewritten, and the other
    documents are untouched. *)
Lemma checkout_document account priceId w doc :
  db w !! account_pid account = Some doc ->
  db (world (checkout account priceId w)) !! account_pid account = Some doc \/
  exists c,
    result (customer_resolution account w) = Ok c /\
    db (world (checkout account priceId w)) !! account_pid account
      = Some (apply_sets (checkout_updateData c) doc).
Proof.
  intros Hstored.
  destruct (result (customer_resolution account w)) as [c|e] eqn:Hres.
  - right. exists c. split; [reflexivity|].
    destruct (checkout_persists account priceId w c Hres) as [-> _].
    rewrite updateOne_upsert_lookup, Hstored. reflexivity.
  - left. rewrite (checkout_unresolved _ _ _ _ Hres). cbn [world].
    rewrite customer_resolution_db. exact Hstored.
Qed.

Lemma checkout_other_documents account priceId w other :
  other <> account_pid account ->
  db (world (checkout account priceId w)) !! other = db w !! other.
Proof.
  intros Hne.
  destruct (result (customer_resolution account w)) as [c|e] eqn:Hres.
  - destruct (checkout_persists account priceId w c Hres) as [-> _].
    apply updateOne_other, Hne.
  - rewrite (checkout_unresolved _ _ _ _ Hres). cbn [world].
    rewrite customer_resolution_db. reflexivity.
Qed.

(** ** Claims about checkout *)

(** C1, as the code has it.  A checkout started by a staff account
    ([access_level >= 2]) whose customer was resolved ends in the policy
    error and creates no checkout session; [access_level] and the four tier
    fields of the stored document are left as they were.  The upsert of line
    329 has run before the staff gate of line 340: the stored [customer_id]
    is the resolved customer's and [latest_webhook_timestamp] is 0. *)
Theorem staff_checkout_rejected_after_upsert account priceId w doc c :
  db w !! account_pid account = Some doc ->
  2 <= access_level doc ->
  result (customer_resolution account w) = Ok c ->
  result (checkout account priceId w) = Ok staff_rejection /\
  (forall params,
     ~ In (stripe_checkout_sessions_create_call params)
          (effects (checkout account priceId w))) /\
  db (world (checkout account priceId w)) =
    <[ account_pid account :=
       {| pid := pid doc;
          access_level := access_level doc;
          connections_stripe :=
            {| customer_id := value (Customer.id c);
               subscription_id := subscription_id (connections_stripe doc);
               price_id := price_id (connections_stripe doc);
               tier_level := tier_level (connections_stripe doc);
               tier_name := tier_name (connections_stripe doc);
               latest_webhook_timestamp := 0 |} |} ]> (db w).
Proof.
  intros Hstored Hstaff Hres.
  pose proof (checkout_run account priceId w) as Hrun. cbv zeta in Hrun.
  rewrite Hres in Hrun. destruct Hrun as (doc' & Hdoc' & Hrun).
  rewrite updateOne_upsert_lookup, Hstored, apply_checkout_updateData in Hdoc'.
  injection Hdoc' as <-. cbn [access_level] in Hrun.
  destruct (Z.leb_spec 2 (access_level doc)) as [_|Hlt]; [|lia].
  rewrite Hrun. cbn [result effects world db].
  split; [reflexivity|]. split.
  - intros params Hin. apply in_app_or in Hin as [Hin|[Hin|[]]]; [|discriminate].
    apply customer_resolution_effects in Hin as [[q Hq]|[n Hn]]; discriminate.
  - rewrite (updateOne_stored _ _ _ _ _ Hstored), apply_checkout_updateData.
    reflexivity.
Qed.

(** C6. Whatever the provider answers, every update a checkout issues is the
    upsert of the account's own document, and it sets [customer_id], to the
    resolved customer's identifier, and the watermark, and nothing else, so no
    tier field is written; the stored document keeps its
    [subscription_id], [price_id], [tier_level] and [tier_name] (and its
    [access_level]), and no other document changes. *)
Theorem checkout_writes_no_tier_field account priceId w :
  (forall filter_pid fields upsert,
     In (database_PNID_updateOne_call filter_pid fields upsert)
        (effects (checkout account priceId w)) ->
     filter_pid = account_pid account /\
     (exists c,
        result (customer_resolution account w) = Ok c /\
        fields = [ Set_customer_id (value (Customer.id c));
                   Set_latest_webhook_timestamp 0 ]) /\
     forall f, In f fields -> is_tier_field f = false) /\
  (forall doc,
     db w !! account_pid account = Some doc ->
     exists doc',
       db (world (checkout account priceId w)) !! account_pid account = Some doc' /\
       subscription_id (connections_stripe doc') = subscription_id (connections_stripe doc) /\
       price_id (connections_stripe doc') = price_id (connections_stripe doc) /\
       tier_level (connections_stripe doc') = tier_level (connections_stripe doc) /\
       tier_name (connections_stripe doc') = tier_name (connections_stripe doc) /\
       access_level doc' = access_level doc) /\
  (forall other,
     other <> account_pid account ->
     db (world (checkout account priceId w)) !! other = db w !! other).
Proof.
  split; [|split].
  - intros filter_pid fields upsert Hin.
    destruct (result (customer_resolution account w)) as [c|e] eqn:Hres.
    + destruct (checkout_persists account priceId w c Hres) as (_ & after & Heff & Hafter).
      rewrite Heff in Hin. apply in_app_or in Hin as [Hin|Hin].
      * apply customer_resolution_effects in Hin as [[q Hq]|[n Hn]]; discriminate.
      * assert (Hupd : @database_PNID_updateOne_call Event filter_pid fields upsert
                       = database_PNID_updateOne_call (account_pid account)
                           (checkout_updateData c) true).
        { destruct Hin as [Hin|Hin]; [congruence|].
          destruct Hafter as [->| ->]; [destruct Hin|].
          destruct Hin as [Hin|[]]. discriminate. }
        injection Hupd as -> -> ->. split; [reflexivity|]. split.
        { exists c. split; reflexivity. }
        { intros f [<-|[<-|[]]]; reflexivity. }
    + rewrite (checkout_unresolved _ _ _ _ Hres) in Hin. cbn [effects] in Hin.
      apply customer_resolution_effects in Hin as [[q Hq]|[n Hn]]; discriminate.
  - intros doc Hstored.
    destruct (checkout_document account priceId w doc Hstored) as [Hsame|(c & _ & Hset)].
    + exists doc. auto 10.
    + eexists. split; [exact Hset|]. rewrite apply_checkout_updateData. simpl. auto 10.
  - intros other Hne. apply checkout_other_documents, Hne.
Qed.

(** C7. The resolver searches the provider with the query that names the
    user's [pid] in the customer metadata.  When the search returns
    customers, the first one is the result and nothing is created; when it
    returns none, a customer is created with [pnid_pid] set to the user's
    [pid] and the account's e-mail address, and that one is the result.
    Either way the checkout route then upserts the account's document with
    the resolved identifier and a watermark of 0, the least timestamp. *)
Theorem customer_resolution_reuses_or_creates account priceId w :
  let pid := account_pid account in
  let q := customer_query pid in
  let n := {| create_email := address (email account);
              metadata := {| pnid_pid := pid |} |} in
  let persisted (c : Customer.t) :=
    (exists after,
       effects (checkout account priceId w) =
       (effects (customer_resolution account w)
        ++ database_PNID_updateOne_call pid
             [ Set_customer_id (value (Customer.id c));
               Set_latest_webhook_timestamp 0 ] true :: after)%list) /\
    (exists doc,
       db (world (checkout account priceId w)) !! pid = Some doc /\
       customer_id (connections_stripe doc) = value (Customer.id c) /\
       latest_webhook_timestamp (connections_stripe doc) = 0) in
  query q = "metadata['pnid_pid']:'" +:+ pretty pid +:+ "'" /\
  (forall found rest p1,
     customers_search stripe q (provider w) = (Ok (found :: rest), p1) ->
     customer_resolution account w =
       {| result := Ok found; world := {| db := db w; provider := p1 |};
          effects := [stripe_customers_search_call q] |} /\
     persisted found) /\
  (forall created p1 p2,
     customers_search stripe q (provider w) = (Ok [], p1) ->
     customers_create stripe n p1 = (Ok created, p2) ->
     customer_resolution account w =
       {| result := Ok created; world := {| db := db w; provider := p2 |};
          effects := [stripe_customers_search_call q; stripe_customers_create_call n] |} /\
     persisted created).
Proof.
  intros pid q n persisted.
  assert (Hpersist : forall c, result (customer_resolution account w) = Ok c -> persisted c).
  { intros c Hres.
    destruct (checkout_persists account priceId w c Hres) as (Hdb & after & Heff & _).
    split; [exists after; exact Heff|].
    eexists. split; [rewrite Hdb; apply updateOne_upsert_lookup|].
    rewrite apply_checkout_updateData. split; reflexivity. }
  split; [reflexivity|].
  destruct (customer_resolution_run account w)
    as [(e & p1' & Hs & Hrun)|[(c & rest' & p1' & Hs & Hrun)|(p1' & r & p2' & Hs & Hc & Hrun)]];
    fold pid q in Hs; split.
  - intros found rest p1 Hsearch. congruence.
  - intros created p1 p2 Hsearch. congruence.
  - intros found rest p1 Hsearch. rewrite Hsearch in Hs. injection Hs as <- <- <-.
    split; [exact Hrun|]. apply Hpersist. rewrite Hrun. reflexivity.
  - intros created p1 p2 Hsearch. congruence.
  - intros found rest p1 Hsearch. congruence.
  - intros created p1 p2 Hsearch Hcreate.
    rewrite Hsearch in Hs. injection Hs as <-.
    fold pid n in Hc. rewrite Hcreate in Hc. injection Hc as <- <-.
    split; [exact Hrun|]. apply Hpersist. rewrite Hrun. reflexivity.
Qed.

(** C8. A checkout succeeds when it redirects the browser with status 303.
    Then exactly one session was created, as the last call of the request:
    its mode is "subscription", its only line item is the chosen plan with
    quantity 1, it is bound to the resolved customer (the identifier just
    stored on the account), the browser is sent to that session's URL, and
    its success and cancel URLs are the same address ending in
    "true" and "false" respectively. *)
Theorem successful_checkout_session account priceId w response location :
  result (checkout account priceId w) = Ok response ->
  reply response = redirect 303 location ->
  exists c session before,
    let params := checkout_session_params priceId (Customer.id c) in
    result (customer_resolution account w) = Ok c /\
    effects (checkout account priceId w)
      = (before ++ [stripe_checkout_sessions_create_call params])%list /\
    (forall other, ~ In (stripe_checkout_sessions_create_call other) before) /\
    location = Session.url session /\
    mode params = "subscription" /\
    line_items params = [ {| price := priceId; quantity := 1 |} ] /\
    customer params = Customer.id c /\
    (exists doc,
       db (world (checkout account priceId w)) !! account_pid account = Some doc /\
       customer_id (connections_stripe doc) = value (customer params)) /\
    success_url params = http_base_url config +:+ "/account?upgrade_success=" +:+ "true" /\
    cancel_url params = http_base_url config +:+ "/account?upgrade_success=" +:+ "false".
Proof.
  intros Hok H303.
  pose proof (checkout_run account priceId w) as Hrun. cbv zeta in Hrun.
  destruct (result (customer_resolution account w)) as [c|e] eqn:Hres.
  2:{ rewrite Hrun in Hok. discriminate. }
  destruct Hrun as (doc & Hdoc & Hrun).
  destruct (2 <=? access_level doc).
  { rewrite Hrun in Hok. injection Hok as <-. discriminate. }
  destruct Hrun as (r & p2 & Hsession & Hrun).
  rewrite Hrun in Hok. cbn [result] in Hok. injection Hok as <-.
  destruct r as [session|error]; [|discriminate].
  injection H303 as <-.
  exists c, session,
    (effects (customer_resolution account w)
     ++ [database_PNID_updateOne_call (account_pid account) (checkout_updateData c) true])%list.
  cbv zeta. rewrite Hrun. cbn [effects world db].
  split; [reflexivity|]. split; [rewrite <- app_assoc; reflexivity|]. split.
  { intros other Hin. apply in_app_or in Hin as [Hin|[Hin|[]]]; [|discriminate].
    apply customer_resolution_effects in Hin as [[q Hq]|[n Hn]]; discriminate. }
  repeat (split; [reflexivity|]). split; [|split; reflexivity].
  exists doc. split; [exact Hdoc|].
  rewrite updateOne_upsert_lookup, apply_checkout_updateData in Hdoc.
  injection Hdoc as <-. reflexivity.
Qed.

(** C10. Whether the search finds a customer or a new one is created, the
    checkout route resets the stored [latest_webhook_timestamp] to 0 with an
    update that precedes any session creation, and no later update of the
    request restores it.  So the watermark can move backwards: an event whose
    positive timestamp was at or below the watermark before the checkout, as
    is the case of an event already applied, passes the watermark comparison
    afterwards. *)
Theorem checkout_resets_watermark account priceId w :
  let pid := account_pid account in
  let q := customer_query pid in
  let n := {| create_email := address (email account);
              metadata := {| pnid_pid := pid |} |} in
  (exists found rest p1,
     customers_search stripe q (provider w) = (Ok (found :: rest), p1)) \/
  (exists created p1 p2,
     customers_search stripe q (provider w) = (Ok [], p1) /\
     customers_create stripe n p1 = (Ok created, p2)) ->
  (exists before customerId after,
     effects (checkout account priceId w) =
     (before
      ++ database_PNID_updateOne_call pid
           [ Set_customer_id (value customerId); Set_latest_webhook_timestamp 0 ] true
      :: after)%list /\
     (forall params, ~ In (stripe_checkout_sessions_create_call params) before) /\
     (forall filter_pid fields upsert,
        ~ In (database_PNID_updateOne_call filter_pid fields upsert) after)) /\
  (exists doc',
     db (world (checkout account priceId w)) !! pid = Some doc' /\
     latest_webhook_timestamp (connections_stripe doc') = 0 /\
     forall doc timestamp,
       db w !! pid = Some doc ->
       0 < timestamp ->
       watermark_accepts timestamp doc = false ->
       latest_webhook_timestamp (connections_stripe doc')
         < latest_webhook_timestamp (connections_stripe doc) /\
       watermark_accepts timestamp doc' = true).
Proof.
  intros pid q n Hresolved.
  assert (Hres : exists c, result (customer_resolution account w) = Ok c).
  { destruct (customer_resolution_run account w)
      as [(e & p1' & Hs & Hrun)|[(c & rest' & p1' & Hs & Hrun)|(p1' & r & p2' & Hs & Hc & Hrun)]];
      fold pid q in Hs.
    - destruct Hresolved as [(? & ? & ? & H)|(? & ? & ? & H & _)]; congruence.
    - exists c. rewrite Hrun. reflexivity.
    - destruct Hresolved as [(? & ? & ? & H)|(created & p1 & p2 & H & Hcreate)];
        [congruence|].
      rewrite H in Hs. injection Hs as <-.
      fold pid n in Hc. rewrite Hcreate in Hc. injection Hc as <- <-.
      exists created. rewrite Hrun. reflexivity. }
  destruct Hres as [c Hres].
  destruct (checkout_persists account priceId w c Hres) as (Hdb & after & Heff & Hafter).
  split.
  - exists (effects (customer_resolution account w)), (Customer.id c), after.
    split; [exact Heff|]. split.
    + intros params Hin.
      apply customer_resolution_effects in Hin as [[? ?]|[? ?]]; discriminate.
    + intros filter_pid fields upsert Hin.
      destruct Hafter as [->| ->]; [destruct Hin|].
      destruct Hin as [Hin|[]]. discriminate.
  - eexists. split; [rewrite Hdb; apply updateOne_upsert_lookup|].
    rewrite apply_checkout_updateData. cbn [connections_stripe latest_webhook_timestamp].
    split; [reflexivity|].
    intros doc timestamp _ Hpos Hstale. unfold watermark_accepts in *.
    cbn [connections_stripe latest_webhook_timestamp].
    apply Z.ltb_ge in Hstale. split; [lia|]. apply Z.ltb_lt. exact Hpos.
Qed.

(** ** Claim about the webhook endpoint *)

(** C2. The webhook route first has Stripe check the payload against the
    signature header and the configured secret.  When the check throws, the
    route answers 400 with the error text, which is not the acknowledgment,
    and makes no call at all, so the event never reaches
    [util.handleStripeEvent] and the world is as it was.  When the check
    returns an event, that event is handed to [util.handleStripeEvent] once,
    before anything else, and when the reconciler returns, whatever it did or
    did not change, the route answers with the acknowledgment body. *)
Theorem webhook_authenticates_before_processing body stripeSignature w :
  (forall err,
     webhooks_constructEvent stripe body stripeSignature (stripe_webhook_secret config)
       = Throw err ->
     webhook body stripeSignature w =
       {| result := Ok {| cookies := [];
                          reply := send 400 ("Webhook Error: " +:+ message err) |};
          world := w;
          effects := [] |} /\
     send 400 ("Webhook Error: " +:+ message err) <> acknowledgment) /\
  (forall event,
     webhooks_constructEvent stripe body stripeSignature (stripe_webhook_secret config)
       = Ok event ->
     effects (webhook body stripeSignature w)
       = util_handleStripeEvent_call event :: effects (util_handleStripeEvent event w) /\
     world (webhook body stripeSignature w) = world (util_handleStripeEvent event w) /\
     (forall done,
        result (util_handleStripeEvent event w) = Ok done ->
        result (webhook body stripeSignature w)
          = Ok {| cookies := []; reply := acknowledgment |})).
Proof.
  split.
  - intros err Hverify. unfold webhook. rewrite Hverify. split; [reflexivity|discriminate].
  - intros event Hverify. unfold webhook, bind, emit, ret. rewrite Hverify. cbn [result world effects].
    destruct (result (util_handleStripeEvent event w)) as [[]|e] eqn:Hhandled;
      cbn [result world effects]; rewrite ?app_nil_r; repeat split; try reflexivity.
    intros done Hdone. discriminate.
Qed.

(** * Further properties of the Stripe routes *)

(** The three runs of an unsubscribe request, side by side. *)
Lemma unsubscribe_runs pnid w :
  let o := unsubscribe pnid w in
  (truthy (subscription_id (connections_stripe pnid)) = false /\
   o = {| result := Ok (unsubscribe_success (tier_name (connections_stripe pnid)));
          world := w; effects := [] |})
  \/
  (exists sid p',
     subscription_id (connections_stripe pnid) = value sid /\ sid <> "" /\
     subscriptions_del stripe sid (provider w) = (Ok tt, p') /\
     o = {| result := Ok (unsubscribe_success (tier_name (connections_stripe pnid)));
            world := {| db := updateOne (pid pnid) (unsubscribe_updateData pnid) false (db w);
                        provider := p' |};
            effects := [ stripe_subscriptions_del_call sid;
                         database_PNID_updateOne_call (pid pnid)
                           (unsubscribe_updateData pnid) false ] |})
  \/
  (exists sid e p' msg,
     subscription_id (connections_stripe pnid) = value sid /\ sid <> "" /\
     subscriptions_del stripe sid (provider w) = (Throw e, p') /\
     o = {| result := Ok unsubscribe_error;
            world := {| db := db w; provider := p' |};
            effects := [ stripe_subscriptions_del_call sid; logger_error_call msg ] |}).
Proof.
  cbv zeta.
  destruct (truthy (subscription_id (connections_stripe pnid))) eqn:Ht.
  - destruct (truthy_value _ Ht) as (sid & Hsid & Hne & _).
    destruct (subscriptions_del stripe sid (provider w)) as [[[]|e] p'] eqn:Hdel.
    + right. left. exists sid, p'. repeat (split; [assumption|]).
      apply unsubscribe_cancelled; assumption.
    + right. right.
      destruct (unsubscribe_refused _ _ _ _ _ Hsid Hne Hdel) as [msg Hrun].
      exists sid, e, p', msg. repeat (split; [assumption|]). exact Hrun.
  - left. split; [reflexivity|]. apply unsubscribe_nothing_to_cancel, Ht.
Qed.

Lemma updateOne_absent filter_pid fields (docs : gmap Z PNID) :
  docs !! filter_pid = None -> updateOne filter_pid fields false docs = docs.
Proof. intros H. unfold updateOne. rewrite H. reflexivity. Qed.

(** X1. An identifier that was never set, or is the empty string, counts as
    no subscription: the request makes no call, changes nothing and answers
    with the success response. *)
Theorem unsubscribe_absent_or_empty_identifier_is_noop pnid w :
  subscription_id (connections_stripe pnid) = undefined \/
  subscription_id (connections_stripe pnid) = value "" ->
  unsubscribe pnid w =
  {| result := Ok (unsubscribe_success (tier_name (connections_stripe pnid)));
     world := w;
     effects := [] |}.
Proof.
  intros Hfalsy. apply unsubscribe_nothing_to_cancel.
  destruct Hfalsy as [-> | ->]; reflexivity.
Qed.

(** X2. An unsubscribe request never throws: whatever the provider does, the
    browser is redirected to [/account] with exactly one cookie, [success] or
    [error_message], on the [.pretendo.network] domain. *)
Theorem unsubscribe_always_answers pnid w :
  exists cookie,
    result (unsubscribe pnid w)
      = Ok {| cookies := [cookie]; reply := redirect 302 "/account" |} /\
    cookie_domain cookie = ".pretendo.network" /\
    (cookie_name cookie = "success" \/ cookie_name cookie = "error_message").
Proof.
  destruct (unsubscribe_runs pnid w)
    as [[_ Hrun]|[(sid & p' & _ & _ & _ & Hrun)|(sid & e & p' & msg & _ & _ & _ & Hrun)]];
    cbv zeta in Hrun; rewrite Hrun; eexists; (split; [reflexivity|]); simpl; auto.
Qed.

(** X3. With the collection answering its update, the handler writes to the
    error log, and answers with the error response, exactly when the provider
    was asked to cancel and rejected. *)
Theorem unsubscribe_logs_exactly_on_provider_failure pnid w :
  let rejected :=
    exists sid e p',
      subscription_id (connections_stripe pnid) = value sid /\ sid <> "" /\
      subscriptions_del stripe sid (provider w) = (Throw e, p') in
  ((exists msg, In (logger_error_call msg) (effects (unsubscribe pnid w))) <-> rejected) /\
  (result (unsubscribe pnid w) = Ok unsubscribe_error <-> rejected).
Proof.
  intros rejected. unfold rejected.
  destruct (unsubscribe_runs pnid w)
    as [[Ht Hrun]|[(sid & p' & Hsid & Hne & Hdel & Hrun)|(sid & e & p' & msg & Hsid & Hne & Hdel & Hrun)]];
    cbv zeta in Hrun; rewrite Hrun; cbn [result effects].
  - split; split.
    + intros [msg []].
    + intros (sid & e & p' & Hsid & Hne & _). rewrite Hsid in Ht.
      rewrite (truthy_nonempty _ Hne) in Ht. discriminate.
    + intros H. exfalso. apply (error_is_not_success (tier_name (connections_stripe pnid))).
      congruence.
    + intros (sid & e & p' & Hsid & Hne & _). rewrite Hsid in Ht.
      rewrite (truthy_nonempty _ Hne) in Ht. discriminate.
  - split; split.
    + intros [msg [H|[H|[]]]]; discriminate.
    + intros (sid' & e & p'' & Hsid' & _ & Hdel'). congruence.
    + intros H. exfalso. apply (error_is_not_success (tier_name (connections_stripe pnid))).
      congruence.
    + intros (sid' & e & p'' & Hsid' & _ & Hdel'). congruence.
  - split; split; eauto 10.
    intros _. exists msg. right. left. reflexivity.
Qed.

(** X4. An unsubscribe request neither creates nor deletes a document; the
    [pid], [customer_id] and [latest_webhook_timestamp] of every stored
    document are kept, and the documents of other users are kept whole. *)
Theorem unsubscribe_frame pnid w (key : Z) :
  match db w !! key with
  | None => db (world (unsubscribe pnid w)) !! key = None
  | Some doc =>
      exists doc',
        db (world (unsubscribe pnid w)) !! key = Some doc' /\
        pid doc' = pid doc /\
        customer_id (connections_stripe doc') = customer_id (connections_stripe doc) /\
        latest_webhook_timestamp (connections_stripe doc')
          = latest_webhook_timestamp (connections_stripe doc) /\
        (key <> pid pnid -> doc' = doc)
  end.
Proof.
  destruct (unsubscribe_runs pnid w)
    as [[_ Hrun]|[(sid & p' & _ & _ & _ & Hrun)|(sid & e & p' & msg & _ & _ & _ & Hrun)]];
    cbv zeta in Hrun; rewrite Hrun; cbn [world db].
  - destruct (db w !! key) as [doc|]; [|reflexivity]. exists doc. auto.
  - destruct (decide (key = pid pnid)) as [->|Hne].
    + destruct (db w !! pid pnid) as [doc|] eqn:Hstored.
      * rewrite (updateOne_stored _ _ _ _ _ Hstored), lookup_insert_eq.
        eexists. split; [reflexivity|]. rewrite apply_unsubscribe_updateData.
        cbn. repeat split. congruence.
      * rewrite (updateOne_absent _ _ _ Hstored). exact Hstored.
    + rewrite (updateOne_other _ _ _ _ _ Hne).
      destruct (db w !! key) as [doc|]; [|reflexivity]. exists doc. auto.
  - destruct (db w !! key) as [doc|]; [|reflexivity]. exists doc. auto.
Qed.

(** X5. Whether [access_level] is reset is decided on the document the
    request carries, not on the stored one: after a successful cancellation
    the stored level is 0 when the request's copy was below 2, whatever the
    stored level was, and is the stored level otherwise. *)
Theorem unsubscribe_decides_on_request_copy pnid w sid p' stored :
  subscription_id (connections_stripe pnid) = value sid -> sid <> "" ->
  subscriptions_del stripe sid (provider w) = (Ok tt, p') ->
  db w !! pid pnid = Some stored ->
  exists doc',
    db (world (unsubscribe pnid w)) !! pid pnid = Some doc' /\
    access_level doc' = if access_level pnid <? 2 then 0 else access_level stored.
Proof.
  intros Hsid Hne Hdel Hstored.
  rewrite (unsubscribe_cancelled _ _ _ _ Hsid Hne Hdel). cbn [world db].
  rewrite (updateOne_stored _ _ _ _ _ Hstored), lookup_insert_eq.
  eexists. split; [reflexivity|]. rewrite apply_unsubscribe_updateData. reflexivity.
Qed.

(** X6. Unsubscribing is idempotent across requests: after a request whose
    cancellation succeeded, a second request that carries the stored document
    makes no call and changes nothing. *)
Theorem unsubscribe_again_is_noop pnid w sid p' refreshed :
  subscription_id (connections_stripe pnid) = value sid -> sid <> "" ->
  subscriptions_del stripe sid (provider w) = (Ok tt, p') ->
  db w !! pid pnid = Some pnid ->
  db (world (unsubscribe pnid w)) !! pid pnid = Some refreshed ->
  unsubscribe refreshed (world (unsubscribe pnid w)) =
  {| result := Ok (unsubscribe_success null);
     world := world (unsubscribe pnid w);
     effects := [] |}.
Proof.
  intros Hsid Hne Hdel Hstored Hrefreshed.
  rewrite (unsubscribe_cancelled _ _ _ _ Hsid Hne Hdel) in *. cbn [world db] in *.
  rewrite (updateOne_stored _ _ _ _ _ Hstored), lookup_insert_eq,
    apply_unsubscribe_updateData in Hrefreshed.
  apply (inj Some) in Hrefreshed. subst refreshed.
  rewrite unsubscribe_nothing_to_cancel; reflexivity.
Qed.

(** X8. When the collection holds no document for the account, the upsert
    of a checkout inserts one, under the account's [pid], that carries this
    [pid], the resolved customer and a watermark of 0; the documents already
    stored are untouched. *)
Theorem checkout_upsert_inserts_missing_document account priceId w c :
  db w !! account_pid account = None ->
  result (customer_resolution account w) = Ok c ->
  exists doc',
    db (world (checkout account priceId w)) = <[ account_pid account := doc' ]> (db w) /\
    pid doc' = account_pid account /\
    customer_id (connections_stripe doc') = value (Customer.id c) /\
    latest_webhook_timestamp (connections_stripe doc') = 0.
Proof.
  intros Habsent Hres.
  destruct (checkout_persists account priceId w c Hres) as [-> _].
  unfold updateOne. rewrite Habsent. eexists. split; [reflexivity|].
  rewrite apply_checkout_updateData. repeat split.
Qed.

(** X9. When Stripe refuses to create the session, the request answers with
    Stripe's message in the [error_message] cookie and a redirect to
    [/account]; the upsert that came first stays: the stored document has the
    resolved customer and a watermark of 0. *)
Theorem checkout_session_failure_keeps_upsert account priceId w doc c error p2 :
  db w !! account_pid account = Some doc ->
  access_level doc < 2 ->
  result (customer_resolution account w) = Ok c ->
  checkout_sessions_create stripe
    (checkout_session_params priceId (Customer.id c))
    (provider (world (customer_resolution account w))) = (Throw error, p2) ->
  result (checkout account priceId w) =
    Ok {| cookies := [pretendo_cookie "error_message" (message error)];
          reply := redirect 302 "/account" |} /\
  db (world (checkout account priceId w)) !! account_pid account =
    Some (apply_sets
            [ Set_customer_id (value (Customer.id c)); Set_latest_webhook_timestamp 0 ]
            doc).
Proof.
  intros Hstored Hlevel Hres Hsession.
  pose proof (checkout_run account priceId w) as Hrun. cbv zeta in Hrun.
  rewrite Hres in Hrun. destruct Hrun as (doc' & Hdoc' & Hrun).
  rewrite updateOne_upsert_lookup, Hstored in Hdoc'.
  apply (inj Some) in Hdoc'. subst doc'.
  rewrite apply_checkout_updateData in Hrun. cbn [access_level] in Hrun.
  destruct (Z.leb_spec 2 (access_level doc)) as [Hge|_]; [lia|].
  destruct Hrun as (r & p2' & Hsession' & Hrun).
  rewrite Hsession in Hsession'. injection Hsession' as <- <-.
  rewrite Hrun. cbn [result world db]. split; [reflexivity|].
  rewrite updateOne_upsert_lookup, Hstored. reflexivity.
Qed.

(** X10. With the customer resolved, Stripe is asked for a checkout session
    exactly when the stored [access_level] is below 2. *)
Theorem checkout_creates_session_iff_below_staff account priceId w doc c :
  db w !! account_pid account = Some doc ->
  result (customer_resolution account w) = Ok c ->
  (exists params,
     In (stripe_checkout_sessions_create_call params)
        (effects (checkout account priceId w)))
  <-> access_level doc < 2.
Proof.
  intros Hstored Hres.
  pose proof (checkout_run account priceId w) as Hrun. cbv zeta in Hrun.
  rewrite Hres in Hrun. destruct Hrun as (doc' & Hdoc' & Hrun).
  rewrite updateOne_upsert_lookup, Hstored in Hdoc'.
  apply (inj Some) in Hdoc'. subst doc'.
  rewrite apply_checkout_updateData in Hrun. cbn [access_level] in Hrun.
  destruct (Z.leb_spec 2 (access_level doc)) as [Hge|Hlt].
  - rewrite Hrun. cbn [effects]. split; [|lia].
    intros [params Hin]. apply in_app_or in Hin as [Hin|[Hin|[]]]; [|discriminate].
    apply customer_resolution_effects in Hin as [[q Hq]|[n Hn]]; discriminate.
  - destruct Hrun as (r & p2 & _ & ->). cbn [effects]. split; [intros _; exact Hlt|].
    intros _. eexists. apply in_or_app. right. right. left. reflexivity.
Qed.

(** X11. Starting a checkout again changes no document when the resolver
    answers with the same customer: the second upsert rewrites what the first
    one stored. *)
Theorem checkout_again_same_customer_same_documents account priceId priceId' w c :
  result (customer_resolution account w) = Ok c ->
  result (customer_resolution account (world (checkout account priceId w))) = Ok c ->
  db (world (checkout account priceId' (world (checkout account priceId w))))
    = db (world (checkout account priceId w)).
Proof.
  intros Hres Hres'.
  destruct (checkout_persists _ priceId' _ c Hres') as [-> _].
  destruct (checkout_persists _ priceId _ c Hres) as [-> _].
  pose proof (updateOne_upsert_lookup (account_pid account) (checkout_updateData c) (db w))
    as Hlookup.
  rewrite (updateOne_stored _ _ _ _ _ Hlookup).
  apply insert_id. rewrite Hlookup. reflexivity.
Qed.

Lemma webhook_verified body stripeSignature w event :
  webhooks_constructEvent stripe body stripeSignature (stripe_webhook_secret config)
    = Ok event ->
  webhook body stripeSignature w =
  {| result :=
       match result (util_handleStripeEvent event w) with
       | Ok _ => Ok {| cookies := []; reply := acknowledgment |}
       | Throw e => Throw e
       end;
     world := world (util_handleStripeEvent event w);
     effects := util_handleStripeEvent_call event :: effects (util_handleStripeEvent event w) |}.
Proof.
  intros Hverify. unfold webhook, bind, emit, ret. rewrite Hverify.
  cbn [result world effects].
  destruct (result (util_handleStripeEvent event w)) as [[]|e];
    cbn [result world effects]; rewrite ?app_nil_r; reflexivity.
Qed.

(** X12. The webhook route answers with the acknowledgment exactly when the
    signature check returned an event and the reconciler returned; when the
    reconciler throws, the route throws the same error and sends nothing. *)
Theorem webhook_acknowledges_iff_verified_and_handled body stripeSignature w :
  ((exists response,
      result (webhook body stripeSignature w) = Ok response /\
      reply response = acknowledgment)
   <->
   (exists event done,
      webhooks_constructEvent stripe body stripeSignature (stripe_webhook_secret config)
        = Ok event /\
      result (util_handleStripeEvent event w) = Ok done)) /\
  (forall event e,
     webhooks_constructEvent stripe body stripeSignature (stripe_webhook_secret config)
       = Ok event ->
     result (util_handleStripeEvent event w) = Throw e ->
     result (webhook body stripeSignature w) = Throw e).
Proof.
  split.
  - split.
    + intros (response & Hok & Hreply).
      destruct (webhooks_constructEvent stripe body stripeSignature
                  (stripe_webhook_secret config)) as [event|err] eqn:Hverify.
      * rewrite (webhook_verified _ _ _ _ Hverify) in Hok. cbn [result] in Hok.
        destruct (result (util_handleStripeEvent event w)) as [done|e] eqn:Hhandled;
          [|discriminate].
        exists event, done. split; [reflexivity|exact Hhandled].
      * unfold webhook in Hok. rewrite Hverify in Hok.
        injection Hok as <-. discriminate.
    + intros (event & done & Hverify & Hhandled).
      rewrite (webhook_verified _ _ _ _ Hverify). cbn [result]. rewrite Hhandled.
      eexists. split; reflexivity.
  - intros event e Hverify Hhandled.
    rewrite (webhook_verified _ _ _ _ Hverify). cbn [result]. rewrite Hhandled.
    reflexivity.
Qed.

(** C9, as the code has it.  The unsubscribe handler decides on the document
    the request carries ([request.pnid]), not on the stored one: its update
    sets [access_level] only to 0 and only when the carried level is below 2,
    so the stored level after the request is the stored level before, or it
    is 0 and the carried level was below 2; when the carried level is 2 or
    more, as for a staff account whose request carries its stored document,
    the stored level is kept.  A checkout never changes the stored level.
    The webhook route leaves the world as it was, or as
    [util.handleStripeEvent] left it: it writes nothing of its own. *)
Theorem unsubscribe_resets_level_by_request_copy
    pnid stored w account priceId body stripeSignature :
  db w !! pid pnid = Some stored ->
  account_pid account = pid pnid ->
  (forall v,
     In (Set_access_level v) (unsubscribe_updateData pnid) ->
     access_level pnid < 2 /\ v = 0) /\
  (exists doc',
     db (world (unsubscribe pnid w)) !! pid pnid = Some doc' /\
     (access_level doc' = access_level stored \/
      access_level pnid < 2 /\ access_level doc' = 0) /\
     (2 <= access_level pnid -> access_level doc' = access_level stored)) /\
  (exists doc',
     db (world (checkout account priceId w)) !! pid pnid = Some doc' /\
     access_level doc' = access_level stored) /\
  (world (webhook body stripeSignature w) = w \/
   exists event,
     webhooks_constructEvent stripe body stripeSignature (stripe_webhook_secret config)
       = Ok event /\
     world (webhook body stripeSignature w) = world (util_handleStripeEvent event w)).
Proof.
  intros Hstored Hpid. split; [|split; [|split]].
  - intros v Hin. apply access_level_in_updateData. exact Hin.
  - destruct (unsubscribe_runs pnid w)
      as [[_ Hrun]|[(sid & p' & _ & _ & _ & Hrun)|(sid & e & p' & msg & _ & _ & _ & Hrun)]];
      cbv zeta in Hrun; rewrite Hrun; cbn [world db].
    + exists stored. auto.
    + rewrite (updateOne_stored _ _ _ _ _ Hstored), lookup_insert_eq.
      eexists. split; [reflexivity|].
      rewrite apply_unsubscribe_updateData. cbn [access_level].
      destruct (Z.ltb_spec (access_level pnid) 2); split; auto; lia.
    + exists stored. auto.
  - rewrite <- Hpid in *.
    destruct (checkout_document account priceId w stored Hstored)
      as [Hsame|(c & _ & Hset)].
    + exists stored. auto.
    + eexists. split; [exact Hset|]. reflexivity.
  - destruct (webhooks_constructEvent stripe body stripeSignature
                (stripe_webhook_secret config)) as [event|err] eqn:Hverify.
    + right. exists event. split; [reflexivity|].
      rewrite (webhook_verified _ _ _ _ Hverify). reflexivity.
    + left. unfold webhook. rewrite Hverify. reflexivity.
Qed.

End Properties.

(** * The routes on the demo provider *)

Local Abbreviation demo_checkout :=
  (checkout Demo.stripe Demo.config Demo.schema_defaults).
Local Abbreviation demo_resolution := (customer_resolution Demo.stripe).
Local Abbreviation demo_unsubscribe := (unsubscribe Demo.stripe Demo.schema_defaults).
Local Abbreviation demo_webhook :=
  (webhook Demo.stripe Demo.config Demo.handleStripeEvent).

Example webhook_rejects_forged_signature :
  demo_webhook "{}" (value "forged") Demo.w_online =
  {| result :=
       Ok {| cookies := [];
             reply := send 400 "Webhook Error: No signatures found matching the expected signature for payload" |};
     world := Demo.w_online;
     effects := [] |}.
Proof. reflexivity. Qed.

Example webhook_acknowledges_signed_event :
  demo_webhook "{}" (value "whsec_demo") Demo.w_online =
  {| result := Ok {| cookies := []; reply := json [("received", true)] |};
     world := Demo.w_online;
     effects := [util_handleStripeEvent_call "{}"] |}.
Proof. reflexivity. Qed.

Example unsubscribe_with_empty_identifier :
  let pnid := {| pid := 1004; access_level := 1;
                 connections_stripe :=
                   {| customer_id := value "cus_9"; subscription_id := value "";
                      price_id := null; tier_level := value 0; tier_name := null;
                      latest_webhook_timestamp := 0 |} |} in
  effects (demo_unsubscribe pnid Demo.w_online) = [].
Proof. reflexivity. Qed.

(** C1 as the spec words it fails on the staff member of the demo: the
    request is refused with the policy error, yet the stored document has a
    new [customer_id] and a watermark of 0. *)
Lemma staff_checkout_mutates_customer_and_watermark :
  let account := Demo.account_of Demo.staff "staff@pretendo.network" in
  let o := demo_checkout account "price_1" Demo.w_online in
  db Demo.w_online !! account_pid account = Some Demo.staff /\
  2 <= access_level Demo.staff /\
  result o = Ok staff_rejection /\
  customer_id (connections_stripe Demo.staff) = undefined /\
  latest_webhook_timestamp (connections_stripe Demo.staff) = 1700000500 /\
  db (world o) <> db Demo.w_online /\
  exists doc',
    db (world o) !! account_pid account = Some doc' /\
    customer_id (connections_stripe doc') = value "cus_1" /\
    latest_webhook_timestamp (connections_stripe doc') = 0.
Proof.
  cbv zeta. split; [reflexivity|]. split; [vm_compute; discriminate|].
  split; [reflexivity|]. split; [reflexivity|]. split; [reflexivity|]. split.
  - intros Hsame. apply (f_equal (fun docs => docs !! 1002)) in Hsame.
    vm_compute in Hsame. discriminate Hsame.
  - eexists. split; [vm_compute; reflexivity|]. split; reflexivity.
Qed.

Lemma staff_checkout_rejected_after_upsert_witness :
  let account := Demo.account_of Demo.staff "staff@pretendo.network" in
  let o := demo_checkout account "price_1" Demo.w_online in
  (db Demo.w_online !! account_pid account = Some Demo.staff /\
   2 <= access_level Demo.staff /\
   result (demo_resolution account Demo.w_online) = Ok {| Customer.id := "cus_1" |}) /\
  result o = Ok staff_rejection /\
  (forall params, ~ In (stripe_checkout_sessions_create_call params) (effects o)).
Proof.
  cbv zeta.
  assert (H1 : db Demo.w_online
                 !! account_pid (Demo.account_of Demo.staff "staff@pretendo.network")
               = Some Demo.staff) by reflexivity.
  assert (H2 : 2 <= access_level Demo.staff) by (vm_compute; discriminate).
  assert (H3 : result (demo_resolution
                         (Demo.account_of Demo.staff "staff@pretendo.network")
                         Demo.w_online)
               = Ok {| Customer.id := "cus_1" |}) by reflexivity.
  split; [auto|].
  destruct (staff_checkout_rejected_after_upsert Demo.stripe Demo.config
              Demo.schema_defaults _ "price_1" _ _ _ H1 H2 H3) as (Hr & Hs & _).
  split; [exact Hr|exact Hs].
Defined.

Lemma unsubscribe_without_subscription_is_noop_witness :
  subscription_id (connections_stripe Demo.newcomer) = null /\
  demo_unsubscribe Demo.newcomer Demo.w_online =
  {| result := Ok (unsubscribe_success null); world := Demo.w_online; effects := [] |}.
Proof.
  split; [reflexivity|].
  apply (unsubscribe_without_subscription_is_noop Demo.stripe Demo.schema_defaults
           Demo.newcomer Demo.w_online).
  reflexivity.
Defined.

Lemma unsubscribe_provider_failure_no_mutation_witness :
  (subscription_id (connections_stripe Demo.subscriber) = value "sub_1" /\
   "sub_1" <> "" /\
   subscriptions_del Demo.stripe "sub_1" (provider Demo.w_offline)
     = (Throw Demo.unreachable, provider Demo.w_offline)) /\
  db (world (demo_unsubscribe Demo.subscriber Demo.w_offline)) = db Demo.w_offline /\
  result (demo_unsubscribe Demo.subscriber Demo.w_offline) = Ok unsubscribe_error.
Proof.
  assert (H1 : subscription_id (connections_stripe Demo.subscriber) = value "sub_1")
    by reflexivity.
  assert (H2 : "sub_1" <> "") by discriminate.
  assert (H3 : subscriptions_del Demo.stripe "sub_1" (provider Demo.w_offline)
               = (Throw Demo.unreachable, provider Demo.w_offline)) by reflexivity.
  split; [auto|].
  destruct (unsubscribe_provider_failure_no_mutation Demo.stripe Demo.schema_defaults
              _ _ _ _ _ H1 H2 H3) as (Hdb & _ & Hr & _).
  split; [exact Hdb|exact Hr].
Defined.

Lemma unsubscribe_success_applies_unsubscribed_witness :
  (subscription_id (connections_stripe Demo.subscriber) = value "sub_1" /\
   db Demo.w_online !! pid Demo.subscriber = Some Demo.subscriber /\
   In (stripe_subscriptions_del_call "sub_1")
      (effects (demo_unsubscribe Demo.subscriber Demo.w_online)) /\
   subscriptions_del Demo.stripe "sub_1" (provider Demo.w_online)
     = (Ok tt, provider Demo.w_online)) /\
  db (world (demo_unsubscribe Demo.subscriber Demo.w_online)) =
    <[ 1001 :=
       {| pid := 1001; access_level := 0;
          connections_stripe :=
            {| customer_id := value "cus_0"; subscription_id := null;
               price_id := null; tier_level := value 0; tier_name := null;
               latest_webhook_timestamp := 1700000000 |} |} ]> (db Demo.w_online).
Proof.
  assert (H1 : subscription_id (connections_stripe Demo.subscriber) = value "sub_1")
    by reflexivity.
  assert (H2 : db Demo.w_online !! pid Demo.subscriber = Some Demo.subscriber)
    by reflexivity.
  assert (H3 : In (stripe_subscriptions_del_call "sub_1")
                 (effects (demo_unsubscribe Demo.subscriber Demo.w_online)))
    by (left; reflexivity).
  assert (H4 : subscriptions_del Demo.stripe "sub_1" (provider Demo.w_online)
               = (Ok tt, provider Demo.w_online)) by reflexivity.
  split; [auto|].
  destruct (unsubscribe_success_applies_unsubscribed Demo.stripe Demo.schema_defaults
              _ _ _ _ H1 H2 H3 H4) as (_ & Hdb & _).
  exact Hdb.
Defined.

Lemma successful_checkout_session_witness :
  let account := Demo.account_of Demo.subscriber "mario@pretendo.network" in
  let o := demo_checkout account "price_2" Demo.w_online in
  let response :=
    {| cookies := []; reply := redirect 303 "https://checkout.stripe.com/c/pay/cus_0" |} in
  (result o = Ok response /\
   reply response = redirect 303 "https://checkout.stripe.com/c/pay/cus_0") /\
  exists c before,
    effects o =
    (before ++ [stripe_checkout_sessions_create_call
                  (checkout_session_params Demo.config "price_2" (Customer.id c))])%list.
Proof.
  cbv zeta.
  assert (H1 : result (demo_checkout
                         (Demo.account_of Demo.subscriber "mario@pretendo.network")
                         "price_2" Demo.w_online)
               = Ok {| cookies := [];
                       reply := redirect 303 "https://checkout.stripe.com/c/pay/cus_0" |})
    by reflexivity.
  split; [split; [exact H1|reflexivity]|].
  destruct (successful_checkout_session Demo.stripe Demo.config Demo.schema_defaults
              _ _ _ _ _ H1 eq_refl) as (c & session & before & _ & Heff & _).
  exists c, before. exact Heff.
Defined.

Lemma checkout_resets_watermark_witness :
  let account := Demo.account_of Demo.subscriber "mario@pretendo.network" in
  let q := customer_query 1001 in
  let applied := 1700000000 in
  ((exists found rest p1,
      customers_search Demo.stripe q (provider Demo.w_online) = (Ok (found :: rest), p1)) /\
   db Demo.w_online !! 1001 = Some Demo.subscriber /\
   latest_webhook_timestamp (connections_stripe Demo.subscriber) = applied /\
   0 < applied /\
   watermark_accepts applied Demo.subscriber = false) /\
  exists doc',
    db (world (demo_checkout account "price_2" Demo.w_online)) !! 1001 = Some doc' /\
    latest_webhook_timestamp (connections_stripe doc') = 0 /\
    latest_webhook_timestamp (connections_stripe doc')
      < latest_webhook_timestamp (connections_stripe Demo.subscriber) /\
    watermark_accepts applied doc' = true.
Proof.
  cbv zeta.
  assert (H : exists found rest p1,
            customers_search Demo.stripe (customer_query 1001) (provider Demo.w_online)
              = (Ok (found :: rest), p1)).
  { eexists _, _, _. reflexivity. }
  assert (H1 : db Demo.w_online !! 1001 = Some Demo.subscriber) by reflexivity.
  assert (H2 : 0 < 1700000000) by reflexivity.
  assert (H3 : watermark_accepts 1700000000 Demo.subscriber = false) by reflexivity.
  split; [repeat split; assumption|].
  destruct (checkout_resets_watermark Demo.stripe Demo.config Demo.schema_defaults
              (Demo.account_of Demo.subscriber "mario@pretendo.network") "price_2"
              Demo.w_online (or_introl H)) as (_ & doc' & Hdoc' & Hzero & Hagain).
  destruct (Hagain Demo.subscriber 1700000000 H1 H2 H3) as [Hback Haccepts].
  exists doc'. repeat split; assumption.
Defined.

(** C9 as the spec words it fails when the request carries an older copy of
    the document: the stored level is 3, the copy the request carries is at
    level 1, the cancellation succeeds, and the stored level is 0
    afterwards. *)
Lemma unsubscribe_lowers_stored_staff_level :
  let o := demo_unsubscribe Demo2.staff_before_promotion Demo.w_online in
  db Demo.w_online !! pid Demo2.staff_before_promotion = Some Demo.staff /\
  access_level Demo.staff = 3 /\
  2 <= access_level Demo.staff /\
  exists doc',
    db (world o) !! pid Demo2.staff_before_promotion = Some doc' /\
    access_level doc' = 0 /\
    access_level doc' < access_level Demo.staff.
Proof.
  cbv zeta. split; [reflexivity|]. split; [reflexivity|].
  split; [vm_compute; discriminate|].
  eexists. split; [vm_compute; reflexivity|]. split; reflexivity.
Qed.

Lemma unsubscribe_resets_level_by_request_copy_witness :
  let account := Demo.account_of Demo.staff "staff@pretendo.network" in
  (db Demo.w_online !! pid Demo.staff = Some Demo.staff /\
   account_pid account = pid Demo.staff) /\
  (exists doc',
     db (world (demo_unsubscribe Demo.staff Demo.w_online)) !! pid Demo.staff = Some doc' /\
     subscription_id (connections_stripe doc') = null /\
     access_level doc' = 3) /\
  (exists doc',
     db (world (demo_checkout account "price_1" Demo.w_online)) !! pid Demo.staff = Some doc' /\
     access_level doc' = 3).
Proof.
  cbv zeta.
  assert (H1 : db Demo.w_online !! pid Demo.staff = Some Demo.staff) by reflexivity.
  assert (H2 : account_pid (Demo.account_of Demo.staff "staff@pretendo.network")
               = pid Demo.staff) by reflexivity.
  split; [auto|].
  destruct (unsubscribe_resets_level_by_request_copy Demo.stripe Demo.config
              Demo.handleStripeEvent Demo.schema_defaults
              Demo.staff Demo.staff Demo.w_online
              (Demo.account_of Demo.staff "staff@pretendo.network") "price_1"
              "{}" (value "whsec_demo") H1 H2)
    as (_ & (doc1 & Hdoc1 & _ & Hkept1) & (doc2 & Hdoc2 & Hkept2) & _).
  split.
  - exists doc1. split; [exact Hdoc1|]. split.
    + assert (Hrun : db (world (demo_unsubscribe Demo.staff Demo.w_online)) !! pid Demo.staff
                     = Some {| pid := 1002; access_level := 3;
                               connections_stripe :=
                                 {| customer_id := undefined; subscription_id := null;
                                    price_id := null; tier_level := value 0;
                                    tier_name := null;
                                    latest_webhook_timestamp := 1700000500 |} |})
        by reflexivity.
      rewrite Hrun in Hdoc1. apply (inj Some) in Hdoc1. subst doc1. reflexivity.
    + apply Hkept1. vm_compute. discriminate.
  - exists doc2. split; [exact Hdoc2|exact Hkept2].
Defined.

(** * Properties of the login, registration and logout routes *)

Section PagesProperties.

Variable util_login : Nullable string -> Nullable string -> Result Tokens.
Variable util_register : Registration -> Result Tokens.

Local Abbreviation post_login := (post_login util_login).
Local Abbreviation post_register := (post_register util_register).

Ltac cookie_cases H :=
  repeat (destruct H as [H|H]; [try discriminate H|]); try solve [destruct H].

(** X13. [POST /login] sets each of the three token cookies exactly when
    [util.login] resolved, and the [error_message] cookie exactly when it
    rejected; a rejected login is sent back to [/account/login] with the
    error written to the console, and no cookie is ever cleared. *)
Theorem login_sets_tokens_exactly_on_success username password request_redirect :
  let ops := cookie_ops (post_login username password request_redirect) in
  (forall name,
     In name ["refresh_token"; "access_token"; "token_type"] ->
     (exists v d, In (cookie_set name v d) ops) <->
     (exists tokens, util_login username password = Ok tokens)) /\
  ((exists v d, In (cookie_set "error_message" v d) ops) <->
   (exists error, util_login username password = Throw error)) /\
  (forall error,
     util_login username password = Throw error ->
     ending (post_login username password request_redirect) = end_redirect "/account/login" /\
     console_log (post_login username password request_redirect) = [error]) /\
  (forall name d, ~ In (cookie_clear name d) ops).
Proof.
  unfold post_login.
  destruct (util_login username password) as [tokens|error]; cbn [cookie_ops ending console_log].
  - split; [|split; [|split]].
    + intros name Hname. split; [eauto|]. intros _.
      cookie_cases Hname; subst name; eexists _, _; simpl; eauto 6.
    + split; [|intros [error H]; discriminate].
      intros (v & d & H). cookie_cases H.
    + intros error H. discriminate.
    + intros name d H. cookie_cases H.
  - split; [|split; [|split]].
    + intros name Hname. split; [|intros [tokens H]; discriminate].
      intros (v & d & H). cookie_cases H. injection H as <- _ _.
      cookie_cases Hname.
    + split; [eauto|]. intros _. eexists _, _. left. reflexivity.
    + intros error' [= <-]. split; reflexivity.
    + intros name d H. cookie_cases H.
Qed.

(** X14. [POST /register] always starts by setting the [email], [username]
    and [mii_name] cookies to the submitted values.  It clears each of them
    again, later in the same response, exactly when [util.register]
    resolved; when it rejected they are left for the form and the only other
    cookie is [error_message]. *)
Theorem register_clears_form_cookies_exactly_on_success body request_redirect :
  let ops := cookie_ops (post_register body request_redirect) in
  firstn 3 ops =
    [ cookie_set "email" (reg_email body) ".pretendo.network";
      cookie_set "username" (reg_username body) ".pretendo.network";
      cookie_set "mii_name" (reg_mii_name body) ".pretendo.network" ] /\
  (forall name,
     In name ["email"; "username"; "mii_name"] ->
     In (cookie_clear name ".pretendo.network") (skipn 3 ops) <->
     (exists tokens, util_register body = Ok tokens)) /\
  (forall error,
     util_register body = Throw error ->
     skipn 3 ops = [cookie_set "error_message" (value (message error)) ".pretendo.network"] /\
     ending (post_register body request_redirect) = end_redirect "/account/register").
Proof.
  unfold post_register.
  destruct (util_register body) as [tokens|error]; cbn [cookie_ops ending].
  - split; [reflexivity|]. split.
    + intros name Hname. split; [eauto|]. intros _.
      cookie_cases Hname; subst name; simpl; auto 10.
    + intros error H. discriminate.
  - split; [reflexivity|]. split.
    + intros name Hname. split; [|intros [tokens H]; discriminate].
      simpl. intros H. cookie_cases H.
    + intros error' [= <-]. split; reflexivity.
Qed.

(** X15. What a rejected registration leaves in the browser is what
    [GET /register] picks up: every cookie the rejected [POST /register] set,
    apart from [error_message], is read into the form data under its own
    name and cleared, with the same name and domain, by [GET /register]. *)
Theorem register_form_cookies_are_read_and_cleared body request_redirect error cookies :
  util_register body = Throw error ->
  forall name v d,
    In (cookie_set name v d) (cookie_ops (post_register body request_redirect)) ->
    name <> "error_message" ->
    In (cookie_clear name d) (cookie_ops (get_register cookies)) /\
    exists renderData,
      ending (get_register cookies) = end_render "account/register" renderData /\
      In (name, request_cookie cookies name) renderData.
Proof.
  intros Hrejected name v d Hin Hname.
  unfold post_register in Hin. rewrite Hrejected in Hin. cbn [cookie_ops app] in Hin.
  unfold get_register. cbn [cookie_ops ending].
  cookie_cases Hin; injection Hin as <- _ <-;
    try contradiction; (split; [simpl; auto|]); eexists; (split; [reflexivity|]);
    simpl; auto.
Qed.

(** X16. [GET /logout] clears, with the same name and domain, every cookie a
    successful [POST /login] sets; and every cookie a successful
    [POST /register] sets is cleared either by that response itself or by
    [GET /logout]. *)
Theorem logout_clears_session_cookies name v d :
  (forall username password request_redirect tokens,
     util_login username password = Ok tokens ->
     In (cookie_set name v d) (cookie_ops (post_login username password request_redirect)) ->
     In (cookie_clear name d) (cookie_ops get_logout)) /\
  (forall body request_redirect tokens,
     util_register body = Ok tokens ->
     In (cookie_set name v d) (cookie_ops (post_register body request_redirect)) ->
     In (cookie_clear name d) (cookie_ops (post_register body request_redirect)) \/
     In (cookie_clear name d) (cookie_ops get_logout)).
Proof.
  split.
  - intros username password request_redirect tokens Hok Hin.
    unfold post_login in Hin. rewrite Hok in Hin. cbn [cookie_ops] in Hin.
    unfold get_logout. cbn [cookie_ops].
    cookie_cases Hin; injection Hin as <- _ <-; simpl; auto.
  - intros body request_redirect tokens Hok Hin.
    unfold post_register in *. rewrite Hok in *. cbn [cookie_ops app] in *.
    unfold get_logout. cbn [cookie_ops].
    cookie_cases Hin; injection Hin as <- _ <-; simpl; auto 15.
Qed.

End PagesProperties.

(** * Properties of the online files *)

Section BufferProperties.

Local Abbreviation utf16be :=
  (flat_map (fun unit : Z => [byte_of (Z.shiftr unit 8); byte_of unit])).

Lemma to_N_byte_of (z : Z) : Byte.to_N (byte_of z) = Z.to_N (z mod 256).
Proof.
  unfold byte_of. change 255 with (Z.ones 8). rewrite Z.land_ones by lia.
  change (2 ^ 8) with 256.
  destruct (Byte.of_N (Z.to_N (z mod 256))) as [b|] eqn:Hb.
  - apply Byte.to_of_N, Hb.
  - apply Byte.of_N_None_iff in Hb.
    pose proof (Z.mod_pos_bound z 256 ltac:(lia)). lia.
Qed.

Lemma to_N_inj (a b : Byte.byte) : Byte.to_N a = Byte.to_N b -> a = b.
Proof.
  intros H. pose proof (Byte.of_to_N a) as Ha. pose proof (Byte.of_to_N b) as Hb.
  congruence.
Qed.

(** A code unit is the pair of bytes it is written as. *)
Lemma code_unit_of_bytes (u v : Z) :
  0 <= u < 65536 -> 0 <= v < 65536 ->
  byte_of (Z.shiftr u 8) = byte_of (Z.shiftr v 8) -> byte_of u = byte_of v -> u = v.
Proof.
  intros Hu Hv Hhigh Hlow.
  apply (f_equal Byte.to_N) in Hhigh. apply (f_equal Byte.to_N) in Hlow.
  rewrite !to_N_byte_of in *. rewrite !Z.shiftr_div_pow2 in Hhigh by lia.
  change (2 ^ 8) with 256 in Hhigh.
  pose proof (Z.mod_pos_bound u 256 ltac:(lia)).
  pose proof (Z.mod_pos_bound v 256 ltac:(lia)).
  pose proof (Z.mod_pos_bound (u / 256) 256 ltac:(lia)).
  pose proof (Z.mod_pos_bound (v / 256) 256 ltac:(lia)).
  apply Z2N.inj in Hhigh; [|lia|lia]. apply Z2N.inj in Hlow; [|lia|lia].
  rewrite Z.mod_small in Hhigh by (split; [apply Z.div_pos; lia|apply Z.div_lt_upper_bound; lia]).
  rewrite Z.mod_small in Hhigh by (split; [apply Z.div_pos; lia|apply Z.div_lt_upper_bound; lia]).
  rewrite (Z.div_mod u 256), (Z.div_mod v 256) by lia. lia.
Qed.

Lemma swap_pairs_utf16le (name : list Z) :
  swap_pairs (Buffer_from_utf16le name) = utf16be name.
Proof.
  unfold Buffer_from_utf16le.
  induction name as [|unit name IH]; [reflexivity|]. simpl. rewrite IH. reflexivity.
Qed.

Lemma length_utf16 (f : Z -> Byte.byte) (g : Z -> Byte.byte) (name : list Z) :
  length (flat_map (fun unit => [f unit; g unit]) name) = (2 * length name)%nat.
Proof. induction name as [|unit name IH]; simpl; [reflexivity|]. rewrite IH. lia. Qed.

Lemma even_double (n : nat) : Nat.even (2 * n) = true.
Proof. apply Nat.even_spec. exists n. reflexivity. Qed.

Lemma swap16_utf16le_run (name : list Z) :
  Buffer_swap16 (Buffer_from_utf16le name) = Ok (utf16be name).
Proof.
  unfold Buffer_swap16. unfold Buffer_from_utf16le at 1.
  rewrite length_utf16, even_double, swap_pairs_utf16le. reflexivity.
Qed.

(** X17. [swap16] never throws on the buffer of a UTF-16 string, whose
    length is even, and turns it into the big-endian form: each code unit
    high byte first. *)
Theorem swap16_of_utf16le_is_big_endian (name : list Z) :
  Buffer_swap16 (Buffer_from_utf16le name) =
  Ok (flat_map (fun unit => [byte_of (Z.shiftr unit 8); byte_of unit]) name).
Proof. apply swap16_utf16le_run. Qed.

Lemma firstn_utf16be (k : nat) (name : list Z) :
  firstn (2 * k) (utf16be name) = utf16be (firstn k name).
Proof.
  revert name. induction k as [|k IH]; intros name; [reflexivity|].
  destruct name as [|unit name]; [reflexivity|].
  replace (2 * S k)%nat with (S (S (2 * k))) by lia. simpl firstn. simpl flat_map.
  rewrite <- IH. reflexivity.
Qed.

Lemma skipn_repeat (x : Byte.byte) (n m : nat) :
  skipn n (repeat x m) = repeat x (m - n).
Proof.
  revert m. induction n as [|n IH]; intros m; simpl.
  - rewrite Nat.sub_0_r. reflexivity.
  - destruct m as [|m]; simpl; [reflexivity|]. apply IH.
Qed.

Lemma miiNameBuffer_run (name : list Z) :
  miiNameBuffer name =
  Ok (utf16be (firstn 11 name) ++ repeat Byte.x00 (22 - 2 * Nat.min (length name) 11))%list.
Proof.
  unfold miiNameBuffer. rewrite swap16_utf16le_run. f_equal.
  unfold Buffer_copy, Buffer_alloc. rewrite repeat_length, length_utf16.
  change 22%nat with (2 * 11)%nat at 1. rewrite firstn_utf16be, skipn_repeat.
  f_equal. f_equal. lia.
Qed.

(** X18. The Mii name always occupies exactly [0x16] bytes: the first eleven
    code units of the name, each high byte first, followed by zero bytes up
    to 22.  Longer names are cut after the eleventh unit, and the route
    never throws here. *)
Theorem miiNameBuffer_layout (name : list Z) :
  exists buffer,
    miiNameBuffer name = Ok buffer /\
    buffer =
      (flat_map (fun unit => [byte_of (Z.shiftr unit 8); byte_of unit]) (firstn 11 name)
       ++ repeat Byte.x00 (22 - 2 * Nat.min (length name) 11))%list /\
    length buffer = 22%nat.
Proof.
  rewrite miiNameBuffer_run. eexists. split; [reflexivity|]. split; [reflexivity|].
  rewrite length_app, length_utf16, repeat_length, length_firstn. lia.
Qed.

Lemma byte_of_zero (u : Z) :
  0 <= u < 65536 ->
  byte_of (Z.shiftr u 8) = Byte.x00 -> byte_of u = Byte.x00 -> u = 0.
Proof.
  intros Hu Hhigh Hlow.
  apply (code_unit_of_bytes u 0 Hu ltac:(lia)); [rewrite Hhigh|rewrite Hlow]; reflexivity.
Qed.

Lemma utf16be_padded_inj (n1 n2 : list Z) (k1 k2 : nat) :
  Forall (fun unit => 0 < unit < 65536) n1 ->
  Forall (fun unit => 0 < unit < 65536) n2 ->
  (utf16be n1 ++ repeat Byte.x00 k1 = utf16be n2 ++ repeat Byte.x00 k2)%list ->
  n1 = n2.
Proof.
  intros H1. revert n2 k1 k2.
  induction H1 as [|u n1 Hu H1 IH]; intros n2 k1 k2 H2 Heq.
  - destruct H2 as [|v n2 Hv H2]; [reflexivity|]. exfalso.
    simpl in Heq. destruct k1 as [|[|k1]]; simpl in Heq; try discriminate.
    injection Heq as Hhigh Hlow _.
    assert (v = 0) by (apply byte_of_zero; [lia|congruence|congruence]). lia.
  - destruct H2 as [|v n2 Hv H2].
    + exfalso. simpl in Heq. destruct k2 as [|[|k2]]; simpl in Heq; try discriminate.
      injection Heq as Hhigh Hlow _.
      assert (u = 0) by (apply byte_of_zero; [lia|congruence|congruence]). lia.
    + simpl in Heq. injection Heq as Hhigh Hlow Hrest.
      f_equal.
      * apply code_unit_of_bytes; [lia|lia|assumption|assumption].
      * apply (IH n2 k1 k2 H2 Hrest).
Qed.

(** *** Hexadecimal text *)

Lemma hex_digit_inj (a b : N) :
  (a < 16)%N -> (b < 16)%N -> hex_digit a = hex_digit b -> a = b.
Proof.
  intros Ha Hb.
  assert (Ea : (a = 0 \/ a = 1 \/ a = 2 \/ a = 3 \/ a = 4 \/ a = 5 \/ a = 6 \/ a = 7 \/
                a = 8 \/ a = 9 \/ a = 10 \/ a = 11 \/ a = 12 \/ a = 13 \/ a = 14 \/
                a = 15)%N) by lia.
  assert (Eb : (b = 0 \/ b = 1 \/ b = 2 \/ b = 3 \/ b = 4 \/ b = 5 \/ b = 6 \/ b = 7 \/
                b = 8 \/ b = 9 \/ b = 10 \/ b = 11 \/ b = 12 \/ b = 13 \/ b = 14 \/
                b = 15)%N) by lia.
  repeat (destruct Ea as [->|Ea]); try subst a;
    repeat (destruct Eb as [->|Eb]); try subst b;
    solve [reflexivity | intros H; discriminate H].
Qed.

Lemma hex_digit_is_hex (n : N) :
  In (hex_digit n) (list_ascii_of_string "0123456789abcdef").
Proof.
  destruct n as [|p]; [simpl; auto|].
  do 4 (try destruct p as [p|p|]); simpl; auto 20.
Qed.

Lemma byte_nibbles (b : Byte.byte) :
  (Byte.to_N b / 16 < 16)%N /\ (Byte.to_N b mod 16 < 16)%N.
Proof.
  pose proof (Byte.to_N_bounded b). split.
  - apply N.Div0.div_lt_upper_bound. lia.
  - apply N.mod_lt. lia.
Qed.

Lemma hex_text_shape (b : list Byte.byte) :
  String.length (Buffer_toString_hex b) = (2 * length b)%nat /\
  Forall (fun c => In c (list_ascii_of_string "0123456789abcdef"))
    (list_ascii_of_string (Buffer_toString_hex b)).
Proof.
  split.
  - induction b as [|x b IH]; simpl; [reflexivity|]. rewrite IH. lia.
  - induction b as [|x b IH]; simpl; [constructor|].
    constructor; [apply hex_digit_is_hex|].
    constructor; [apply hex_digit_is_hex|]. exact IH.
Qed.

Lemma hex_text_inj (b1 b2 : list Byte.byte) :
  Buffer_toString_hex b1 = Buffer_toString_hex b2 -> b1 = b2.
Proof.
  revert b2. induction b1 as [|a b1 IH]; intros [|b b2]; simpl;
    try reflexivity; try discriminate.
  intros Heq. injection Heq as Hhigh Hlow Hrest.
  destruct (byte_nibbles a) as [Ha1 Ha2]. destruct (byte_nibbles b) as [Hb1 Hb2].
  apply hex_digit_inj in Hhigh; [|assumption|assumption].
  apply hex_digit_inj in Hlow; [|assumption|assumption].
  f_equal; [|apply IH, Hrest].
  apply to_N_inj.
  rewrite (N.div_mod (Byte.to_N a) 16), (N.div_mod (Byte.to_N b) 16) by lia.
  congruence.
Qed.

(** X19. The [MiiName] line identifies the name: two names of at most eleven
    code units, none of them the NUL unit, whose name buffers print the same
    hexadecimal text are the same name. *)
Theorem MiiName_text_identifies_name (n1 n2 : list Z) (b1 b2 : list Byte.byte) :
  (length n1 <= 11)%nat -> (length n2 <= 11)%nat ->
  Forall (fun unit => 0 < unit < 65536) n1 ->
  Forall (fun unit => 0 < unit < 65536) n2 ->
  miiNameBuffer n1 = Ok b1 -> miiNameBuffer n2 = Ok b2 ->
  Buffer_toString_hex b1 = Buffer_toString_hex b2 ->
  n1 = n2.
Proof.
  intros Hlen1 Hlen2 H1 H2 Hb1 Hb2 Htext.
  apply hex_text_inj in Htext. subst b2.
  rewrite miiNameBuffer_run in Hb1, Hb2. rewrite <- Hb2 in Hb1.
  injection Hb1 as Heq.
  rewrite !firstn_all2 in Heq by lia.
  exact (utf16be_padded_inj _ _ _ _ H1 H2 Heq).
Qed.

(** X20. The hexadecimal text of a buffer has two characters per byte, all
    of them among [0-9a-f], and determines the buffer: different buffers
    never print the same. *)
Theorem Buffer_toString_hex_faithful (b1 b2 : list Byte.byte) :
  String.length (Buffer_toString_hex b1) = (2 * length b1)%nat /\
  Forall (fun c => In c (list_ascii_of_string "0123456789abcdef"))
    (list_ascii_of_string (Buffer_toString_hex b1)) /\
  (Buffer_toString_hex b1 = Buffer_toString_hex b2 -> b1 = b2).
Proof.
  destruct (hex_text_shape b1) as [Hlength Hchars].
  split; [exact Hlength|]. split; [exact Hchars|]. apply hex_text_inj.
Qed.

(** *** The text of [account.dat] *)

Local Abbreviation line_feeds s :=
  (count_occ ascii_dec (list_ascii_of_string s) "010"%char).

Lemma line_feeds_app (s t : string) :
  line_feeds (s +:+ t) = (line_feeds s + line_feeds t)%nat.
Proof.
  induction s as [|c s IH]; [reflexivity|].
  change (String c s +:+ t) with (String c (s +:+ t)).
  cbn [list_ascii_of_string count_occ].
  destruct (ascii_dec c "010"); rewrite IH; reflexivity.
Qed.

Lemma line_feeds_hex (b : list Byte.byte) : line_feeds (Buffer_toString_hex b) = 0%nat.
Proof.
  destruct (hex_text_shape b) as [_ Hchars].
  induction Hchars as [|c chars Hc _ IH]; [reflexivity|].
  cbn [count_occ]. destruct (ascii_dec c "010") as [->|_]; [|exact IH].
  exfalso. simpl in Hc. repeat (destruct Hc as [Hc|Hc]; [discriminate Hc|]). exact Hc.
Qed.

Lemma line_feeds_remove_hyphens (s : string) :
  line_feeds (remove_hyphens s) = line_feeds s.
Proof.
  induction s as [|c s IH]; [reflexivity|].
  cbn [remove_hyphens]. destruct (Ascii.eqb_spec c "-") as [->|_].
  - rewrite IH. reflexivity.
  - cbn [list_ascii_of_string count_occ].
    destruct (ascii_dec c "010"); rewrite IH; reflexivity.
Qed.

Lemma line_feeds_hex_uint (d : Hexadecimal.uint) :
  line_feeds (NilEmpty.string_of_uint d) = 0%nat.
Proof. induction d; simpl; auto. Qed.

Lemma line_feeds_Number_toString_16 (n : Z) : line_feeds (Number_toString_16 n) = 0%nat.
Proof.
  unfold Number_toString_16, NilZero.string_of_int, NilZero.string_of_uint.
  destruct (Z.to_hex_int n) as [d|d]; destruct d;
    try reflexivity; try (apply (line_feeds_hex_uint (_ d)));
    cbn [list_ascii_of_string count_occ];
    match goal with |- context [ascii_dec ?c ?e] => destruct (ascii_dec c e); try discriminate end;
    try reflexivity; apply (line_feeds_hex_uint (_ d)).
Qed.

(** X21. [account.dat] has its seventeen lines, and one more for every line
    feed carried in by the UUID, the user name, the e-mail address or the
    password hash: the Mii data, the Mii name and the principal identifier,
    being hexadecimal, never add one. *)
Theorem accountDat_line_feeds (uuid accountId emailAddress hashedPassword : string)
    (miiData miiName : list Byte.byte) (principalId : Z) :
  count_occ ascii_dec
    (list_ascii_of_string
       (accountDat uuid (Buffer_toString_hex miiData) (Buffer_toString_hex miiName)
          accountId emailAddress (Number_toString_16 principalId) hashedPassword))
    "010"%char
  = (16
     + count_occ ascii_dec (list_ascii_of_string uuid) "010"%char
     + count_occ ascii_dec (list_ascii_of_string accountId) "010"%char
     + count_occ ascii_dec (list_ascii_of_string emailAddress) "010"%char
     + count_occ ascii_dec (list_ascii_of_string hashedPassword) "010"%char)%nat.
Proof.
  unfold accountDat. rewrite !line_feeds_app.
  rewrite !line_feeds_hex, line_feeds_remove_hyphens, line_feeds_Number_toString_16.
  cbn. lia.
Qed.

End BufferProperties.

Section OnlineFilesProperties.

Variable util_nintendoPasswordHash : Nullable string -> Z -> Result string.
Variable Buffer_from_base64 : string -> list Byte.byte.
Variable AdmZip_toBuffer : list ZipEntry -> list Byte.byte.

Local Abbreviation online_files :=
  (online_files util_nintendoPasswordHash Buffer_from_base64 AdmZip_toBuffer).

(** X22. [POST /online-files] throws exactly when [util.nintendoPasswordHash]
    throws, and with its error: no name, however long or empty, makes the
    buffer handling fail.  Otherwise it answers 200 with an archive of three
    entries in this order: [account.dat], a zeroed [otp.bin] of [0x400] bytes
    and a zeroed [seeprom.bin] of [0x200] bytes. *)
Theorem online_files_throws_only_with_password_hash profile password uuid :
  (forall e,
     online_files profile password uuid = Throw e <->
     util_nintendoPasswordHash password (account_pid (profile_account profile)) = Throw e) /\
  (forall response,
     online_files profile password uuid = Ok response ->
     file_status response = 200 /\
     exists dat,
       file_body response =
       AdmZip_toBuffer
         [ {| entry_name := "mlc01/usr/save/system/act/80000001/account.dat";
              entry_data := Buffer_from dat |};
           {| entry_name := "otp.bin"; entry_data := repeat Byte.x00 1024 |};
           {| entry_name := "seeprom.bin"; entry_data := repeat Byte.x00 512 |} ]).
Proof.
  unfold online_files.
  rewrite miiNameBuffer_run.
  destruct (util_nintendoPasswordHash password (account_pid (profile_account profile)))
    as [hashedPassword|e0].
  - split.
    + intros e. split; discriminate.
    + intros response [= <-]. split; [reflexivity|]. eexists. reflexivity.
  - split.
    + intros e. split; intros [= ->]; reflexivity.
    + intros response H. discriminate.
Qed.

End OnlineFilesProperties.

(** * Properties of the Mii editor tables *)

(** X23. Every table of [editorToHex] is a bijection between the slots of the
    editor and the values of the part: read page after page, the faces are a
    rearrangement of 0..11, the hairs of 0..131, the eyebrows of 0..23, the
    eyes of 0..59, the noses of 0..17 and the mouths of 0..35, so no value is
    offered twice and none is missing. *)
Theorem editorToHex_tables_are_permutations :
  face editorToHex ≡ₚ seqZ 0 12 /\
  concat (hairs editorToHex) ≡ₚ seqZ 0 132 /\
  concat (eyebrows editorToHex) ≡ₚ seqZ 0 24 /\
  concat (eyes editorToHex) ≡ₚ seqZ 0 60 /\
  concat (nose editorToHex) ≡ₚ seqZ 0 18 /\
  concat (mouth editorToHex) ≡ₚ seqZ 0 36.
Proof.
  repeat split;
    match goal with
    | |- ?l ≡ₚ _ => rewrite <- (merge_sort_Permutation Z.le l)
    end;
    vm_compute; reflexivity.
Qed.

(** * The further properties on the demo inputs *)

Lemma unsubscribe_absent_or_empty_identifier_is_noop_witness :
  (subscription_id (connections_stripe Demo2.lapsed) = undefined \/
   subscription_id (connections_stripe Demo2.lapsed) = value "") /\
  demo_unsubscribe Demo2.lapsed Demo.w_online =
  {| result := Ok (unsubscribe_success null); world := Demo.w_online; effects := [] |}.
Proof.
  assert (H : subscription_id (connections_stripe Demo2.lapsed) = undefined \/
              subscription_id (connections_stripe Demo2.lapsed) = value "")
    by (right; reflexivity).
  split; [exact H|].
  exact (unsubscribe_absent_or_empty_identifier_is_noop Demo.stripe Demo.schema_defaults
           Demo2.lapsed Demo.w_online H).
Defined.

Lemma unsubscribe_decides_on_request_copy_witness :
  (subscription_id (connections_stripe Demo2.staff_before_promotion) = value "sub_2" /\
   "sub_2" <> "" /\
   subscriptions_del Demo.stripe "sub_2" (provider Demo.w_online)
     = (Ok tt, provider Demo.w_online) /\
   db Demo.w_online !! pid Demo2.staff_before_promotion = Some Demo.staff) /\
  exists doc',
    db (world (demo_unsubscribe Demo2.staff_before_promotion Demo.w_online)) !! 1002
      = Some doc' /\
    access_level doc' = 0.
Proof.
  assert (H1 : subscription_id (connections_stripe Demo2.staff_before_promotion)
               = value "sub_2") by reflexivity.
  assert (H2 : "sub_2" <> "") by discriminate.
  assert (H3 : subscriptions_del Demo.stripe "sub_2" (provider Demo.w_online)
               = (Ok tt, provider Demo.w_online)) by reflexivity.
  assert (H4 : db Demo.w_online !! pid Demo2.staff_before_promotion = Some Demo.staff)
    by reflexivity.
  split; [auto|].
  exact (unsubscribe_decides_on_request_copy Demo.stripe Demo.schema_defaults
           _ _ _ _ _ H1 H2 H3 H4).
Defined.

Lemma unsubscribe_again_is_noop_witness :
  let w1 := world (demo_unsubscribe Demo.subscriber Demo.w_online) in
  let refreshed :=
    {| pid := 1001; access_level := 0;
       connections_stripe :=
         {| customer_id := value "cus_0"; subscription_id := null;
            price_id := null; tier_level := value 0; tier_name := null;
            latest_webhook_timestamp := 1700000000 |} |} in
  (subscription_id (connections_stripe Demo.subscriber) = value "sub_1" /\
   "sub_1" <> "" /\
   subscriptions_del Demo.stripe "sub_1" (provider Demo.w_online)
     = (Ok tt, provider Demo.w_online) /\
   db Demo.w_online !! pid Demo.subscriber = Some Demo.subscriber /\
   db w1 !! pid Demo.subscriber = Some refreshed) /\
  demo_unsubscribe refreshed w1 =
  {| result := Ok (unsubscribe_success null); world := w1; effects := [] |}.
Proof.
  cbv zeta.
  assert (H1 : subscription_id (connections_stripe Demo.subscriber) = value "sub_1")
    by reflexivity.
  assert (H2 : "sub_1" <> "") by discriminate.
  assert (H3 : subscriptions_del Demo.stripe "sub_1" (provider Demo.w_online)
               = (Ok tt, provider Demo.w_online)) by reflexivity.
  assert (H4 : db Demo.w_online !! pid Demo.subscriber = Some Demo.subscriber)
    by reflexivity.
  assert (H5 : db (world (demo_unsubscribe Demo.subscriber Demo.w_online))
                 !! pid Demo.subscriber
               = Some {| pid := 1001; access_level := 0;
                         connections_stripe :=
                           {| customer_id := value "cus_0"; subscription_id := null;
                              price_id := null; tier_level := value 0; tier_name := null;
                              latest_webhook_timestamp := 1700000000 |} |})
    by reflexivity.
  split; [auto 10|].
  exact (unsubscribe_again_is_noop Demo.stripe Demo.schema_defaults
           _ _ _ _ _ H1 H2 H3 H4 H5).
Defined.

Lemma checkout_upsert_inserts_missing_document_witness :
  (db Demo.w_online !! account_pid Demo2.stranger = None /\
   result (demo_resolution Demo2.stranger Demo.w_online) = Ok {| Customer.id := "cus_1" |}) /\
  exists doc',
    db (world (demo_checkout Demo2.stranger "price_1" Demo.w_online))
      = <[ 2000 := doc' ]> (db Demo.w_online) /\
    pid doc' = 2000 /\
    customer_id (connections_stripe doc') = value "cus_1" /\
    latest_webhook_timestamp (connections_stripe doc') = 0.
Proof.
  assert (H1 : db Demo.w_online !! account_pid Demo2.stranger = None) by reflexivity.
  assert (H2 : result (demo_resolution Demo2.stranger Demo.w_online)
               = Ok {| Customer.id := "cus_1" |}) by reflexivity.
  split; [auto|].
  exact (checkout_upsert_inserts_missing_document Demo.stripe Demo.config
           Demo.schema_defaults Demo2.stranger "price_1" Demo.w_online _ H1 H2).
Defined.

Lemma checkout_session_failure_keeps_upsert_witness :
  let account := Demo.account_of Demo.subscriber "mario@pretendo.network" in
  let run := checkout Demo2.stripe_without_sessions Demo.config Demo.schema_defaults
               account "price_2" Demo.w_online in
  (db Demo.w_online !! account_pid account = Some Demo.subscriber /\
   access_level Demo.subscriber < 2 /\
   result (customer_resolution Demo2.stripe_without_sessions account Demo.w_online)
     = Ok {| Customer.id := "cus_0" |}) /\
  result run =
    Ok {| cookies := [pretendo_cookie "error_message" "No such price: 'cus_0'"];
          reply := redirect 302 "/account" |} /\
  exists doc',
    db (world run) !! 1001 = Some doc' /\
    latest_webhook_timestamp (connections_stripe doc') = 0.
Proof.
  cbv zeta.
  assert (H1 : db Demo.w_online
                 !! account_pid (Demo.account_of Demo.subscriber "mario@pretendo.network")
               = Some Demo.subscriber) by reflexivity.
  assert (H2 : access_level Demo.subscriber < 2) by reflexivity.
  assert (H3 : result (customer_resolution Demo2.stripe_without_sessions
                         (Demo.account_of Demo.subscriber "mario@pretendo.network")
                         Demo.w_online)
               = Ok {| Customer.id := "cus_0" |}) by reflexivity.
  split; [auto|].
  destruct (checkout_session_failure_keeps_upsert Demo2.stripe_without_sessions
              Demo.config Demo.schema_defaults _ "price_2" _ _ _
              {| message := "No such price: 'cus_0'" |} (provider Demo.w_online)
              H1 H2 H3 eq_refl) as [Hr Hdb].
  split; [exact Hr|]. eexists. split; [exact Hdb|reflexivity].
Defined.

Lemma checkout_creates_session_iff_below_staff_witness :
  let account := Demo.account_of Demo.subscriber "mario@pretendo.network" in
  (db Demo.w_online !! account_pid account = Some Demo.subscriber /\
   result (demo_resolution account Demo.w_online) = Ok {| Customer.id := "cus_0" |}) /\
  ((exists params,
      In (stripe_checkout_sessions_create_call params)
         (effects (demo_checkout account "price_2" Demo.w_online)))
   <-> access_level Demo.subscriber < 2).
Proof.
  cbv zeta. split; [split; reflexivity|].
  apply (checkout_creates_session_iff_below_staff Demo.stripe Demo.config
           Demo.schema_defaults _ "price_2" Demo.w_online Demo.subscriber
           {| Customer.id := "cus_0" |}); reflexivity.
Defined.

Lemma checkout_again_same_customer_same_documents_witness :
  let account := Demo.account_of Demo.subscriber "mario@pretendo.network" in
  let w1 := world (demo_checkout account "price_2" Demo.w_online) in
  (result (demo_resolution account Demo.w_online) = Ok {| Customer.id := "cus_0" |} /\
   result (demo_resolution account w1) = Ok {| Customer.id := "cus_0" |}) /\
  db (world (demo_checkout account "price_1" w1)) = db w1.
Proof.
  cbv zeta. split; [split; reflexivity|].
  apply (checkout_again_same_customer_same_documents Demo.stripe Demo.config
           Demo.schema_defaults _ "price_2" "price_1" Demo.w_online
           {| Customer.id := "cus_0" |}); reflexivity.
Defined.

Lemma register_form_cookies_are_read_and_cleared_witness :
  let sent := {[ "username" := "peach" ]} : gmap string string in
  (Demo2.register_rejects Demo2.submitted
     = Throw {| message := "Username is already taken" |} /\
   In (cookie_set "username" (value "peach") ".pretendo.network")
      (cookie_ops (post_register Demo2.register_rejects Demo2.submitted undefined)) /\
   "username" <> "error_message") /\
  In (cookie_clear "username" ".pretendo.network") (cookie_ops (get_register sent)) /\
  exists renderData,
    ending (get_register sent) = end_render "account/register" renderData /\
    In ("username", request_cookie sent "username") renderData.
Proof.
  cbv zeta.
  assert (H1 : Demo2.register_rejects Demo2.submitted
               = Throw {| message := "Username is already taken" |}) by reflexivity.
  assert (H2 : In (cookie_set "username" (value "peach") ".pretendo.network")
                 (cookie_ops (post_register Demo2.register_rejects Demo2.submitted
                                undefined)))
    by (right; left; reflexivity).
  assert (H3 : "username" <> "error_message") by discriminate.
  split; [auto|].
  exact (register_form_cookies_are_read_and_cleared Demo2.register_rejects
           Demo2.submitted undefined _ {[ "username" := "peach" ]} H1
           "username" (value "peach") ".pretendo.network" H2 H3).
Defined.

Lemma MiiName_text_identifies_name_witness :
  let field := Buffer_copy
                 (flat_map (fun unit => [byte_of (Z.shiftr unit 8); byte_of unit]) Demo2.mario)
                 (Buffer_alloc 22) in
  ((length Demo2.mario <= 11)%nat /\
   Forall (fun unit => 0 < unit < 65536) Demo2.mario /\
   miiNameBuffer Demo2.mario = Ok field /\
   miiNameBuffer [77; 97; 114; 105; 111] = Ok field) /\
  Demo2.mario = [77; 97; 114; 105; 111].
Proof.
  cbv zeta.
  assert (H1 : (length Demo2.mario <= 11)%nat) by (vm_compute; lia).
  assert (H2 : Forall (fun unit => 0 < unit < 65536) Demo2.mario)
    by (repeat constructor).
  assert (H3 : miiNameBuffer Demo2.mario =
               Ok (Buffer_copy
                     (flat_map (fun unit => [byte_of (Z.shiftr unit 8); byte_of unit])
                        Demo2.mario)
                     (Buffer_alloc 22))) by reflexivity.
  split; [repeat split; assumption|].
  exact (MiiName_text_identifies_name Demo2.mario [77; 97; 114; 105; 111] _ _
           H1 H1 H2 H2 H3 H3 eq_refl).
Defined.

Example mario_name_field :
  option_map Buffer_toString_hex
    (match miiNameBuffer Demo2.mario with Ok b => Some b | Throw _ => None end)
  = Some "004d006100720069006f000000000000000000000000".
Proof. vm_compute. reflexivity. Qed.

(** * What makes a checkout request throw *)

Section CheckoutStoreProperties.

Context {Provider Event : Type}.
Variable stripe : @StripeAPI Provider Event.
Variable config : Config.
Variable PNID_schema_defaults : PNID.
Variable PNID_updateOne : Z -> list SetField -> bool -> @M Provider Event unit.
Variable PNID_findOne : Z -> @M Provider Event (option PNID).

Local Abbreviation checkout_any :=
  (checkout_with stripe config PNID_updateOne PNID_findOne).
Local Abbreviation checkout_reliable :=
  (checkout_with stripe config
     (database_PNID_updateOne PNID_schema_defaults) database_PNID_findOne).
Local Abbreviation checkout := (checkout stripe config PNID_schema_defaults).
Local Abbreviation customer_resolution := (customer_resolution stripe).

(** The staff gate and the session step never throw. *)
Lemma checkout_gate_answers (pnid : PNID) (c : Customer.t) (priceId : string)
    (w : @World Provider) :
  exists response status location,
    result
      ((if 2 <=? access_level pnid then ret staff_rejection
        else
          try_catch
            (bind
               (stripe_checkout_sessions_create stripe
                  (checkout_session_params config priceId (Customer.id c)))
               (fun session =>
                  ret {| cookies := []; reply := redirect 303 (Session.url session) |}))
            (fun error =>
               ret {| cookies := [pretendo_cookie "error_message" (message error)];
                      reply := redirect 302 "/account" |})) w)
    = Ok response /\
    reply response = redirect status location.
Proof.
  destruct (2 <=? access_level pnid).
  - eexists _, _, _. split; reflexivity.
  - unfold try_catch, bind, stripe_checkout_sessions_create, stripe_call, ret.
    destruct (checkout_sessions_create stripe _ (provider w)) as [[session|error] p2];
      cbn [result]; eexists _, _, _; split; reflexivity.
Qed.

(** The result of a checkout over any collection, step by step. *)
Lemma checkout_with_result account priceId w :
  result (checkout_any account priceId w) =
  match result (customer_resolution account w) with
  | Throw e => Throw e
  | Ok c =>
      let o2 := PNID_updateOne (account_pid account) (checkout_updateData c) true
                  (world (customer_resolution account w)) in
      match result o2 with
      | Throw e => Throw e
      | Ok _ =>
          let o3 := PNID_findOne (account_pid account) (world o2) in
          match result o3 with
          | Throw e => Throw e
          | Ok None =>
              Throw {| message := "Cannot read properties of null (reading 'get')" |}
          | Ok (Some pnid) =>
              result
                ((if 2 <=? access_level pnid then ret staff_rejection
                  else
                    try_catch
                      (bind
                         (stripe_checkout_sessions_create stripe
                            (checkout_session_params config priceId (Customer.id c)))
                         (fun session =>
                            ret {| cookies := [];
                                   reply := redirect 303 (Session.url session) |}))
                      (fun error =>
                         ret {| cookies := [pretendo_cookie "error_message" (message error)];
                                reply := redirect 302 "/account" |})) (world o3))
          end
      end
  end.
Proof.
  unfold checkout_with. unfold bind at 1.
  destruct (result (customer_resolution account w)) as [c|e]; [|reflexivity].
  cbn [result]. unfold bind at 1.
  destruct (result (PNID_updateOne _ _ _ _)) as [done|e]; [|reflexivity].
  cbn [result]. unfold bind at 1.
  destruct (result (PNID_findOne _ _)) as [[pnid|]|e]; reflexivity.
Qed.

(** X7. Over any collection, a checkout request throws exactly in these
    cases, each time with the error named: the customer resolution throws;
    or, the customer resolved, the upsert is rejected; or, the upsert done,
    the read-back is rejected or finds no document, which is a [TypeError].
    The session creation never makes it throw, and a request that does not
    throw ends in a redirect.  The route of the claims is this one over the
    collection that always answers and upserts; there it throws exactly when
    the resolution throws, and nothing has been stored or updated then. *)
Theorem checkout_throws_exactly_on_resolution_or_store_failure account priceId w :
  let pid := account_pid account in
  let o1 := customer_resolution account w in
  (forall e,
     result (checkout_any account priceId w) = Throw e <->
     (result o1 = Throw e \/
      exists c,
        result o1 = Ok c /\
        let o2 := PNID_updateOne pid (checkout_updateData c) true (world o1) in
        (result o2 = Throw e \/
         exists done,
           result o2 = Ok done /\
           let o3 := PNID_findOne pid (world o2) in
           (result o3 = Throw e \/
            result o3 = Ok None /\
            e = {| message := "Cannot read properties of null (reading 'get')" |})))) /\
  (forall response,
     result (checkout_any account priceId w) = Ok response ->
     exists status location, reply response = redirect status location) /\
  checkout account priceId w = checkout_reliable account priceId w /\
  (forall e,
     result (checkout account priceId w) = Throw e <-> result o1 = Throw e) /\
  (forall e,
     result (checkout account priceId w) = Throw e ->
     db (world (checkout account priceId w)) = db w /\
     forall filter_pid fields upsert,
       ~ In (database_PNID_updateOne_call filter_pid fields upsert)
            (effects (checkout account priceId w))).
Proof.
  intros pid o1. subst pid o1.
  assert (Hreliable : forall e,
            result (checkout account priceId w) = Throw e <->
            result (customer_resolution account w) = Throw e).
  { intros e.
    pose proof (checkout_run stripe config PNID_schema_defaults account priceId w) as Hrun.
    cbv zeta in Hrun.
    destruct (result (customer_resolution account w)) as [c|e0] eqn:Hres.
    - destruct Hrun as (doc & _ & Hrun).
      destruct (2 <=? access_level doc).
      + rewrite Hrun. split; discriminate.
      + destruct Hrun as (r & p2 & _ & ->). split; discriminate.
    - rewrite Hrun. cbn [result]. split; intros [= ->]; reflexivity. }
  split; [|split; [|split; [|split]]].
  - intros e. rewrite checkout_with_result. cbv zeta.
    destruct (result (customer_resolution account w)) as [c|e1].
    2:{ split; [intros [= ->]; left; reflexivity|].
        intros [[= ->]|(c & Hc & _)]; [reflexivity|discriminate]. }
    destruct (result (PNID_updateOne (account_pid account) (checkout_updateData c) true
                        (world (customer_resolution account w)))) as [done|e2] eqn:Hupdate.
    2:{ split.
        - intros [= ->]. right. exists c. split; [reflexivity|]. left. exact Hupdate.
        - intros [H|(c' & [= <-] & [H|(done & H & _)])]; congruence. }
    destruct (result (PNID_findOne (account_pid account)
                        (world (PNID_updateOne (account_pid account)
                                  (checkout_updateData c) true
                                  (world (customer_resolution account w))))))
      as [[pnid|]|e3] eqn:Hfind.
    + destruct (checkout_gate_answers pnid c priceId
                  (world (PNID_findOne (account_pid account)
                            (world (PNID_updateOne (account_pid account)
                                      (checkout_updateData c) true
                                      (world (customer_resolution account w)))))))
        as (response & status & location & -> & _).
      split; [discriminate|].
      intros [H|(c' & [= <-] & [H|(done' & _ & [H|[H _]])])]; congruence.
    + split.
      * intros [= <-]. right. exists c. split; [reflexivity|]. right.
        exists done. split; [exact Hupdate|]. right. split; [exact Hfind|reflexivity].
      * intros [H|(c' & [= <-] & [H|(done' & _ & [H|[_ ->]])])];
          try congruence; reflexivity.
    + split.
      * intros [= ->]. right. exists c. split; [reflexivity|]. right.
        exists done. split; [exact Hupdate|]. left. exact Hfind.
      * intros [H|(c' & [= <-] & [H|(done' & _ & [H|[H _]])])]; congruence.
  - intros response. rewrite checkout_with_result. cbv zeta.
    destruct (result (customer_resolution account w)) as [c|e1]; [|discriminate].
    destruct (result (PNID_updateOne _ _ _ _)) as [done|e2]; [|discriminate].
    destruct (result (PNID_findOne _ _)) as [[pnid|]|e3]; try discriminate.
    match goal with
    | |- result (?gate ?w') = _ -> _ =>
        destruct (checkout_gate_answers pnid c priceId w')
          as (response' & status & location & -> & Hreply)
    end.
    intros [= <-]. eauto.
  - reflexivity.
  - exact Hreliable.
  - intros e He. apply Hreliable in He.
    rewrite (checkout_unresolved stripe config PNID_schema_defaults _ _ _ _ He).
    cbn [world effects]. split; [apply customer_resolution_db|].
    intros filter_pid fields upsert Hin.
    apply customer_resolution_effects in Hin as [[q Hq]|[n Hn]]; discriminate.
Qed.

End CheckoutStoreProperties.

Example checkout_throws_when_the_upsert_is_rejected :
  let account := Demo.account_of Demo.subscriber "mario@pretendo.network" in
  result (customer_resolution Demo.stripe account Demo.w_online)
    = Ok {| Customer.id := "cus_0" |} /\
  result (checkout_with Demo.stripe Demo.config Demo3.updateOne_rejects
            database_PNID_findOne account "price_2" Demo.w_online)
    = Throw {| message := "connection timed out" |}.
Proof. split; reflexivity. Qed.
